(** * ReDjoChat: the server list endpoint ([djchat/server/views.py])

    A shallow embedding of [ServerListViewSet.list], the handler that turns
    the query parameters of a GET request into a chain of queryset
    refinements, and the properties of its filter composition.

    Layout:
    - Python values the handler computes with: [int] on strings, truthiness,
      list slices;
    - the models the handler reads ([Server], [Category], the request user);
    - the part of Django's [QuerySet] interface the handler calls, with the
      database behind it;
    - the handler itself, as a state-and-exception computation over the
      class attribute [queryset] and the instance attribute it assigns;
    - the documented parameters ([djchat/server/schema.py]);
    - the properties. *)

From Stdlib Require Import ZArith Ascii String List Bool.
From stdpp Require Import base option list gmap strings.

Local Open Scope string_scope.
Local Open Scope Z_scope.

(** ** Python builtins *)

Module Py.

(** The exceptions that can leave the handler.  [AuthenticationFailed] and
    [ValidationError] are the two REST framework exceptions the handler
    raises itself (lines 93, 112, 114); [ValueError], [TypeError] and
    [AttributeError] are the Python builtins raised by [int], by the queryset
    methods and by an attribute lookup on a list; [IntegrityError] is the
    database error Django passes on.  Each carries its message. *)
Inductive Exception : Type :=
| AuthenticationFailed (detail : string)
| ValidationError (detail : string)
| ValueError (msg : string)
| TypeError (msg : string)
| AttributeError (msg : string)
| IntegrityError (msg : string).

(** The ASCII whitespace that [int] strips from both ends of its argument:
    tab, line feed, vertical tab, form feed, carriage return and space. *)
Definition isspace (c : ascii) : bool :=
  let n := nat_of_ascii c in
  (Nat.leb 9 n && Nat.leb n 13) || Nat.eqb n 32.

Definition digit (c : ascii) : option Z :=
  let n := nat_of_ascii c in
  if Nat.leb 48 n && Nat.leb n 57 then Some (Z.of_nat n - 48) else None.

Fixpoint lstrip (l : list ascii) : list ascii :=
  match l with
  | c :: l' => if isspace c then lstrip l' else l
  | [] => []
  end.

Definition strip (l : list ascii) : list ascii :=
  rev (lstrip (rev (lstrip l))).

(** Decimal digits, where single underscores may separate two digits.
    [after_digit] tells whether the previous character was a digit: an
    underscore is accepted only there, and the literal must end there. *)
Fixpoint digits (acc : Z) (after_digit : bool) (l : list ascii) : option Z :=
  match l with
  | [] => if after_digit then Some acc else None
  | c :: l' =>
      match digit c with
      | Some d => digits (10 * acc + d) true l'
      | None =>
          if Ascii.eqb c "_"%char && after_digit then digits acc false l'
          else None
      end
  end.

Definition int_literal (l : list ascii) : option Z :=
  match strip l with
  | "+"%char :: l' => digits 0 false l'
  | "-"%char :: l' => Z.opp <$> digits 0 false l'
  | l' => digits 0 false l'
  end.

Definition double_quote : ascii := ascii_of_nat 34.

Definition hex_digit (n : nat) : ascii :=
  nth n (list_ascii_of_string "0123456789abcdef") "0"%char.

(** One character of [repr(s)], between the quotes [quote]. *)
Definition repr_char (quote c : ascii) : list ascii :=
  let n := nat_of_ascii c in
  if Ascii.eqb c quote || Ascii.eqb c "\"%char then ["\"%char; c]
  else if Nat.eqb n 9 then ["\"%char; "t"%char]
  else if Nat.eqb n 10 then ["\"%char; "n"%char]
  else if Nat.eqb n 13 then ["\"%char; "r"%char]
  else if Nat.ltb n 32 || Nat.eqb n 127
       then ["\"%char; "x"%char; hex_digit (n / 16); hex_digit (n mod 16)]
  else [c].

(** [repr(s)] for a string: single quotes, unless the string holds a single
    quote and no double quote; backslash escapes inside.  Bytes above 127
    are copied. *)
Definition repr (l : list ascii) : list ascii :=
  let quote :=
    if existsb (Ascii.eqb "'"%char) l && negb (existsb (Ascii.eqb double_quote) l)
    then double_quote else "'"%char in
  quote :: flat_map (repr_char quote) l ++ [quote].

(** [int(s)] for a string [s], base ten: the integer, or [ValueError] with
    the message of the interpreter, which shows at most 200 characters of
    [repr(s)].  Strings are byte strings here; on ASCII text this is
    Python's grammar (surrounding whitespace, one optional sign, digits with
    single underscores between them).  Digits and spaces outside ASCII, and
    the interpreter's configurable bound on the number of digits, are left
    out: the properties below speak of parameters through what [int] answers
    on them. *)
Definition int (s : string) : Exception + Z :=
  match int_literal (list_ascii_of_string s) with
  | Some n => inr n
  | None =>
      inl (ValueError
             ("invalid literal for int() with base 10: "
              ++ string_of_list_ascii
                   (firstn 200 (repr (list_ascii_of_string s)))))
  end.

(** Truth value of an object that is [None] or a string: [None] and the
    empty string are false. *)
Definition truthy (o : option string) : bool :=
  match o with
  | None => false
  | Some s => negb (String.eqb s "")
  end.

(** [l[:k]] for a list: a negative bound counts from the end. *)
Definition list_slice_stop {A} (k : Z) (l : list A) : list A :=
  if k <? 0 then take (Z.to_nat (Z.of_nat (length l) + k)) l
  else take (Z.to_nat k) l.

End Py.

(** ** Models and request *)

(** Modelled from the spec: the [Category] model of [models.py].  A category
    is a named grouping. *)
Module Category.
Record t : Type := { name : string }.
End Category.

(** Modelled from the spec: the [Server] model of [models.py].  A server has
    an integer [id], a [category] and a [member] relation, a set of user
    ids. *)
Module Server.
Record t : Type := { id : Z; category : Category.t; member : gset Z }.
End Server.

(** [request.user]: an authenticated user with an id, or the anonymous user,
    whose [id] is [None]. *)
Module User.
Record t : Type := { id : option Z; is_authenticated : bool }.
End User.

(** [request.query_params] is a multi-valued dictionary: each key holds the
    list of the values given for it, and [get] answers with the last one,
    or with the default when the key is missing or its list is empty. *)
Module QueryDict.
Definition get (d : gmap string (list string)) (key : string) : option string :=
  d !! key ≫= last.
End QueryDict.

Module Request.
Record t : Type := { query_params : gmap string (list string); user : User.t }.
End Request.

(** ** The queryset interface *)

(** The calls the handler makes on [self.queryset], with the behaviour of
    Django's [QuerySet] (the framework is not part of the repository):
    [filter], slicing with a stop bound, [annotate] with [Count("member")],
    [exists] and iteration.  A queryset is lazy: it holds a query, which the
    database runs when the rows are asked for, and the rows once they have
    been fetched.  The exception classes and messages are those of Django 4.0
    and later over SQLite (earlier versions raise [AssertionError] with the
    same messages, in the same places). *)
Module QuerySet.

(** A row: the model instance, the member rows joined to it (what
    [Count("member")] counts: the whole relation, or what a [member]
    lookup has left of it), and the [num_members] annotation if any. *)
Record Row : Type :=
  { instance : Server.t; joined_member : gset Z; num_members : option nat }.

(** The database: the stored servers, in the order in which a query without
    grouping yields them, and the rank of each category in the index along
    which a grouping query walks the table. *)
Record Database : Type :=
  { servers : list Server.t; category_rank : Category.t → nat }.

(** The keyword arguments the handler passes to [filter]: an exact match on
    the name of the category, on a member ([member=None] asks for no member
    at all) and on the id. *)
Inductive Lookup : Type :=
| category__name (c : string)
| member (user_id : option Z)
| id (n : Z).

(** A queryset: the conditions of its query in the order they were added,
    whether it is annotated with [num_members=Count("member")], the stop
    bound of its slice if one was taken, and its result cache. *)
Record t : Type :=
  { where_ : list Lookup;
    count_member : bool;
    high_mark : option Z;
    result_cache : option (list Row) }.

(** What [self.queryset] can hold: a queryset, or the list that slicing an
    evaluated queryset gives. *)
Inductive Object : Type :=
| Qs (qs : t)
| PyList (rows : list Row).

(** [Server.objects.all()]. *)
Definition all : t :=
  {| where_ := []; count_member := false; high_mark := None;
     result_cache := None |}.

Definition is_sliced (qs : t) : bool :=
  match high_mark qs with Some _ => true | None => false end.

(** The row of a server, its member join unconstrained. *)
Definition base_row (s : Server.t) : Row :=
  {| instance := s; joined_member := Server.member s; num_members := None |}.

Definition matches (l : Lookup) (r : Row) : bool :=
  match l with
  | category__name c => bool_decide (Category.name (Server.category (instance r)) = c)
  | member (Some u) => bool_decide (u ∈ joined_member r)
  | member None => bool_decide (joined_member r = ∅)
  | id n => bool_decide (Server.id (instance r) = n)
  end.

(** A [member] lookup constrains the join it goes through. *)
Definition constrain (l : Lookup) (r : Row) : Row :=
  match l with
  | member (Some u) =>
      {| instance := instance r;
         joined_member := joined_member r ∩ {[u]};
         num_members := num_members r |}
  | _ => r
  end.

Definition rank_of (db : Database) (r : Row) : nat :=
  category_rank db (Server.category (instance r)).

(** [r] put behind the rows of [rows] whose category does not rank higher. *)
Fixpoint insert_grouped (db : Database) (r : Row) (rows : list Row) : list Row :=
  match rows with
  | [] => [r]
  | x :: rows' =>
      if Nat.ltb (rank_of db r) (rank_of db x) then r :: rows
      else x :: insert_grouped db r rows'
  end.

(** The order in which a grouping query yields its rows.  It has no ORDER
    BY: the rows come category by category along the index, and in stored
    order inside a category. *)
Definition grouped (db : Database) (rows : list Row) : list Row :=
  fold_left (λ acc r, insert_grouped db r acc) rows [].

Definition annotate_row (r : Row) : Row :=
  {| instance := instance r;
     joined_member := joined_member r;
     num_members := Some (size (joined_member r)) |}.

(** The rows of the query before its limit: the conditions, then the
    grouping with its count. *)
Definition rows_of (db : Database) (qs : t) : list Row :=
  let rows :=
    fold_left (λ rows l, map (constrain l) (List.filter (matches l) rows))
      (where_ qs) (map base_row (servers db)) in
  if count_member qs then map annotate_row (grouped db rows) else rows.

(** Running the query.  The stop bound of the slice is the LIMIT of the
    statement, applied to the rows in the order they come in; the database
    refuses a bound beyond its 64-bit integers. *)
Definition run (db : Database) (qs : t) : Py.Exception + list Row :=
  match high_mark qs with
  | Some k =>
      if 2 ^ 63 <=? k then inl (Py.IntegrityError "datatype mismatch")
      else inr (take (Z.to_nat k) (rows_of db qs))
  | None => inr (rows_of db qs)
  end.

(** The rows of a queryset: its cache, or what its query gives. *)
Definition fetch (db : Database) (qs : t) : Py.Exception + list Row :=
  match result_cache qs with
  | Some rows => inr rows
  | None => run db qs
  end.

(** [qs.filter(lookup)].  [QuerySet._filter_or_exclude] refuses a queryset
    whose query is sliced; otherwise the answer is a new queryset, without
    cache, with one more condition. *)
Definition filter (l : Lookup) (qs : t) : Py.Exception + t :=
  if is_sliced qs
  then inl (Py.TypeError "Cannot filter a query once a slice has been taken.")
  else inr {| where_ := where_ qs ++ [l];
              count_member := count_member qs;
              high_mark := None;
              result_cache := None |}.

(** [qs[:k]].  [QuerySet.__getitem__] refuses a negative bound; on an
    evaluated queryset it slices the cached list and answers a list;
    otherwise it answers a new queryset whose query is limited (to the
    smaller bound, if it was limited already). *)
Definition getitem_stop (k : Z) (qs : t) : Py.Exception + Object :=
  if k <? 0
  then inl (Py.ValueError "Negative indexing is not supported.")
  else
    match result_cache qs with
    | Some rows => inr (PyList (Py.list_slice_stop k rows))
    | None =>
        inr (Qs {| where_ := where_ qs;
                   count_member := count_member qs;
                   high_mark :=
                     Some (match high_mark qs with
                           | Some h => Z.min h k
                           | None => k
                           end);
                   result_cache := None |})
    end.

(** [qs.annotate(num_members=Count("member"))]: a new queryset, without
    cache, whose query groups and counts; [annotate] accepts a sliced
    queryset. *)
Definition annotate_num_members (qs : t) : t :=
  {| where_ := where_ qs;
     count_member := true;
     high_mark := high_mark qs;
     result_cache := None |}.

(** [qs.exists()]: on an evaluated queryset, whether the cache holds a row;
    otherwise whether the query, limited to one row, has one. *)
Definition exists_ (db : Database) (qs : t) : bool :=
  match result_cache qs with
  | Some rows => match rows with [] => false | _ :: _ => true end
  | None =>
      match high_mark qs, rows_of db qs with
      | _, [] => false
      | Some k, _ :: _ => 0 <? k
      | None, _ :: _ => true
      end
  end.

(** The attribute lookups the handler makes on [self.queryset]: a list has
    none of the methods. *)
Definition getattr_filter (o : Object)
  : Py.Exception + (Lookup → Py.Exception + Object) :=
  match o with
  | Qs qs =>
      inr (λ l, match filter l qs with
                | inr qs' => inr (Qs qs')
                | inl e => inl e
                end)
  | PyList _ => inl (Py.AttributeError "'list' object has no attribute 'filter'")
  end.

Definition getattr_annotate (o : Object) : Py.Exception + Object :=
  match o with
  | Qs qs => inr (Qs (annotate_num_members qs))
  | PyList _ =>
      inl (Py.AttributeError "'list' object has no attribute 'annotate'")
  end.

Definition getattr_exists (db : Database) (o : Object) : Py.Exception + bool :=
  match o with
  | Qs qs => inr (exists_ db qs)
  | PyList _ => inl (Py.AttributeError "'list' object has no attribute 'exists'")
  end.

Definition getitem (k : Z) (o : Object) : Py.Exception + Object :=
  match o with
  | Qs qs => getitem_stop k qs
  | PyList rows => inr (PyList (Py.list_slice_stop k rows))
  end.

End QuerySet.

(** ** The handler *)

(** What [list] hands to [ServerSerializer] and returns through it: the rows
    of the final queryset and the serializer context entry [num_members].
    The serializer class ([serializer.py]) is not modelled: the response is
    kept at the handler's side of that call. *)
Module Response.
Record t : Type :=
  { data : list QuerySet.Row; context_num_members : bool }.
End Response.

Module ServerListViewSet.

(** The two places where [self.queryset] can be found: the class attribute
    of line 54, one queryset object shared by all requests of the process,
    and the instance attribute that an assignment to [self.queryset]
    creates on the view instance of the request. *)
Record State : Type :=
  { class_queryset : QuerySet.t;
    instance_queryset : option QuerySet.Object }.

(** A computation of the handler: it reads and changes the state and either
    returns a value or raises.  The state keeps the value it had when the
    exception was raised. *)
Definition M (A : Type) : Type :=
  State → (Py.Exception + A) * State.

Definition ret {A} (a : A) : M A := λ st, (inr a, st).

Definition bind {A B} (m : M A) (k : A → M B) : M B :=
  λ st, match m st with
        | (inr a, st') => k a st'
        | (inl e, st') => (inl e, st')
        end.

Definition raise {A} (e : Py.Exception) : M A := λ st, (inl e, st).

(** The value or exception of a call that does not touch the state. *)
Definition call {A} (r : Py.Exception + A) : M A := λ st, (r, st).

(** Reading [self.queryset]: the instance attribute if there is one, the
    class attribute otherwise. *)
Definition self_queryset : M QuerySet.Object :=
  λ st, (inr (match instance_queryset st with
              | Some o => o
              | None => QuerySet.Qs (class_queryset st)
              end), st).

(** [self.queryset = o] *)
Definition set_self_queryset (o : QuerySet.Object) : M unit :=
  λ st, (inr tt, {| class_queryset := class_queryset st;
                    instance_queryset := Some o |}).

(** [try: body except ValueError: handler] *)
Definition try_except_ValueError {A} (body handler : M A) : M A :=
  λ st, match body st with
        | (inl (Py.ValueError _), st') => handler st'
        | r => r
        end.

Definition with_cache (rows : list QuerySet.Row) (qs : QuerySet.t) : QuerySet.t :=
  {| QuerySet.where_ := QuerySet.where_ qs;
     QuerySet.count_member := QuerySet.count_member qs;
     QuerySet.high_mark := QuerySet.high_mark qs;
     QuerySet.result_cache := Some rows |}.

(** Iterating over [self.queryset], as the serializer does for its [data]:
    a queryset fetches its rows and keeps them in its cache, also when it is
    the shared class attribute. *)
Definition iterate_self_queryset (db : QuerySet.Database)
  : M (list QuerySet.Row) :=
  λ st,
    match instance_queryset st with
    | Some (QuerySet.PyList rows) => (inr rows, st)
    | Some (QuerySet.Qs qs) =>
        match QuerySet.fetch db qs with
        | inr rows =>
            (inr rows,
             {| class_queryset := class_queryset st;
                instance_queryset := Some (QuerySet.Qs (with_cache rows qs)) |})
        | inl e => (inl e, st)
        end
    | None =>
        match QuerySet.fetch db (class_queryset st) with
        | inr rows =>
            (inr rows,
             {| class_queryset := with_cache rows (class_queryset st);
                instance_queryset := None |})
        | inl e => (inl e, st)
        end
    end.

(** The state in which a request finds the view: no instance attribute yet,
    and the class attribute either not evaluated ([None]) or holding in its
    cache the servers an earlier request has made it fetch. *)
Definition start (cache : option (list Server.t)) : State :=
  {| class_queryset :=
       {| QuerySet.where_ := [];
          QuerySet.count_member := false;
          QuerySet.high_mark := None;
          QuerySet.result_cache :=
            match cache with
            | Some l => Some (map QuerySet.base_row l)
            | None => None
            end |};
     instance_queryset := None |}.

(** The cache that the next request of the process finds. *)
Definition cache_after (st : State) : option (list Server.t) :=
  match QuerySet.result_cache (class_queryset st) with
  | Some rows => Some (map QuerySet.instance rows)
  | None => None
  end.

Notation "x <- m ;; k" := (bind m (λ x, k))
  (at level 100, m at next level, right associativity).
Notation "m ;; k" := (bind m (λ _, k))
  (at level 100, right associativity).

(** [ServerListViewSet.list], lines 86 to 119, over the database [db].  In
    [self.queryset.filter(...)] the attribute is looked up before the
    argument is evaluated. *)
Definition list (db : QuerySet.Database) (request : Request.t)
  : M Response.t :=
  let query_params := Request.query_params request in
  let category := QueryDict.get query_params "category" in
  let qty := QueryDict.get query_params "qty" in
  let by_user :=
    bool_decide (QueryDict.get query_params "by_user" = Some "true") in
  let by_serverid := QueryDict.get query_params "by_serverid" in
  let with_num_members :=
    bool_decide (QueryDict.get query_params "with_num_members" = Some "True") in
  (if by_user
      || (Py.truthy by_serverid
          && negb (User.is_authenticated (Request.user request)))
   then raise (Py.AuthenticationFailed
                 "You must be logged in to perform this action")
   else ret tt) ;;
  match category with
  | Some category =>
      o <- self_queryset ;;
      filter <- call (QuerySet.getattr_filter o) ;;
      o <- call (filter (QuerySet.category__name category)) ;;
      set_self_queryset o
  | None => ret tt
  end ;;
  match qty with
  | Some qty =>
      o <- self_queryset ;;
      stop <- call (Py.int qty) ;;
      o <- call (QuerySet.getitem stop o) ;;
      set_self_queryset o
  | None => ret tt
  end ;;
  (if by_user
   then
     let user_id := User.id (Request.user request) in
     o <- self_queryset ;;
     filter <- call (QuerySet.getattr_filter o) ;;
     o <- call (filter (QuerySet.member user_id)) ;;
     set_self_queryset o
   else ret tt) ;;
  (if with_num_members
   then
     o <- self_queryset ;;
     o <- call (QuerySet.getattr_annotate o) ;;
     set_self_queryset o
   else ret tt) ;;
  match by_serverid with
  | Some by_serverid =>
      try_except_ValueError
        (o <- self_queryset ;;
         filter <- call (QuerySet.getattr_filter o) ;;
         n <- call (Py.int by_serverid) ;;
         o <- call (filter (QuerySet.id n)) ;;
         set_self_queryset o ;;
         o <- self_queryset ;;
         found <- call (QuerySet.getattr_exists db o) ;;
         if found then ret tt
         else raise (Py.ValidationError "Server not found"))
        (raise (Py.ValidationError "Invalid server id"))
  | None => ret tt
  end ;;
  rows <- iterate_self_queryset db ;;
  ret {| Response.data := rows;
         Response.context_num_members := with_num_members |}.

End ServerListViewSet.

(** The handler on the view instance of one request, over the database [db]
    and with the class attribute in the state [cache]: the outcome and the
    final state. *)
Definition handle (db : QuerySet.Database) (cache : option (list Server.t))
    (request : Request.t)
  : (Py.Exception + Response.t) * ServerListViewSet.State :=
  ServerListViewSet.list db request (ServerListViewSet.start cache).

(** *** Test data *)

Definition mk_server (i : Z) (c : string) (m : list Z) : Server.t :=
  {| Server.id := i;
     Server.category := {| Category.name := c |};
     Server.member := list_to_set m |}.

Definition five_servers : list Server.t :=
  [ mk_server 1 "Gaming" [10; 11];
    mk_server 2 "Music" [10];
    mk_server 3 "Gaming" [];
    mk_server 4 "gaming" [11; 12; 13];
    mk_server 5 "Gaming" [12] ].

(** A database of five servers whose category index holds Gaming, Music and
    gaming in that order. *)
Definition five_db : QuerySet.Database :=
  {| QuerySet.servers := five_servers;
     QuerySet.category_rank := λ c,
       if String.eqb (Category.name c) "Gaming" then 0%nat
       else if String.eqb (Category.name c) "Music" then 1%nat
       else 2%nat |}.

Definition anonymous : User.t :=
  {| User.id := None; User.is_authenticated := false |}.

Definition logged_in (uid : Z) : User.t :=
  {| User.id := Some uid; User.is_authenticated := true |}.

(** A request with single-valued parameters. *)
Definition mk_request (params : list (string * string)) (u : User.t) : Request.t :=
  {| Request.query_params := list_to_map (prod_map id (λ v, [v]) <$> params);
     Request.user := u |}.

Definition ids (rs : list QuerySet.Row) : list Z :=
  map (λ r, Server.id (QuerySet.instance r)) rs.

(** The outcome of a run, with the response read as the ids it lists. *)
Definition returned_ids (r : Py.Exception + Response.t) : Py.Exception + list Z :=
  match r with
  | inl e => inl e
  | inr resp => inr (ids (Response.data resp))
  end.

(** ** Reading a queryset as a list of servers *)

(** The parameter [key] of a request, as the handler reads it. *)
Definition param (request : Request.t) (key : string) : option string :=
  QueryDict.get (Request.query_params request) key.

(** The request without the parameter [key]. *)
Definition without (key : string) (request : Request.t) : Request.t :=
  {| Request.query_params := delete key (Request.query_params request);
     Request.user := Request.user request |}.

(** The row of a server whose member join is unconstrained, with or without
    the [num_members] annotation. *)
Definition row (annotated : bool) (s : Server.t) : QuerySet.Row :=
  {| QuerySet.instance := s;
     QuerySet.joined_member := Server.member s;
     QuerySet.num_members :=
       if annotated then Some (size (Server.member s)) else None |}.

Definition has_category (c : string) (s : Server.t) : bool :=
  bool_decide (Category.name (Server.category s) = c).

Definition has_id (n : Z) (s : Server.t) : bool :=
  bool_decide (Server.id s = n).

Definition servers (rs : list QuerySet.Row) : list Server.t :=
  map QuerySet.instance rs.

(** The servers [l] in the order in which a grouping query yields them. *)
Definition grouped_servers (db : QuerySet.Database) (l : list Server.t)
  : list Server.t :=
  servers (QuerySet.grouped db (map (row false) l)).

(** The rows that a query without limit yields for the servers [l]: in
    their order when it does not group, annotated and in the order of the
    grouping when it does. *)
Definition yielded (db : QuerySet.Database) (annotated : bool)
    (l : list Server.t) : list QuerySet.Row :=
  if annotated then map (row true) (grouped_servers db l)
  else map (row false) l.

(** The database [db] with the servers [l] in place of its own. *)
Definition with_servers (l : list Server.t) (db : QuerySet.Database)
  : QuerySet.Database :=
  {| QuerySet.servers := l;
     QuerySet.category_rank := QuerySet.category_rank db |}.

(** The three error kinds of the specification, as the handler raises them. *)
Definition AuthenticationRequired : Py.Exception :=
  Py.AuthenticationFailed "You must be logged in to perform this action".
Definition InvalidParameter : Py.Exception :=
  Py.ValidationError "Invalid server id".
Definition NotFound : Py.Exception :=
  Py.ValidationError "Server not found".

Definition documented (e : Py.Exception) : bool :=
  match e with
  | Py.AuthenticationFailed _ | Py.ValidationError _ => true
  | Py.ValueError _ | Py.TypeError _
  | Py.AttributeError _ | Py.IntegrityError _ => false
  end.

(** ** The specification's vocabulary *)

(** The condition of the authentication gate, line 92, as a boolean. *)
Definition auth_gate (request : Request.t) : bool :=
  bool_decide (param request "by_user" = Some "true")
  || (Py.truthy (param request "by_serverid")
      && negb (User.is_authenticated (Request.user request))).

(** A request the gate rejects, in the specification's words but with
    [by_serverid] required to be non-empty. *)
Definition restricted (request : Request.t) : Prop :=
  param request "by_user" = Some "true"
  ∨ ∃ s, param request "by_serverid" = Some s ∧ s ≠ ""
         ∧ User.is_authenticated (Request.user request) = false.

(** The gate condition as the specification words it: [by_user] is true, or
    [by_serverid] is present and the identity is anonymous. *)
Definition restricted_as_stated (request : Request.t) : Prop :=
  param request "by_user" = Some "true"
  ∨ (is_Some (param request "by_serverid")
     ∧ User.is_authenticated (Request.user request) = false).

(** The exceptions a computation can raise all satisfy [P]. *)
Definition raises_only {A} (P : Py.Exception → Prop)
    (m : ServerListViewSet.M A) : Prop :=
  ∀ st e, fst (m st) = inl e → P e.

(** An exception other than the gate's. *)
Definition not_authentication (e : Py.Exception) : Prop :=
  ∀ detail, e ≠ Py.AuthenticationFailed detail.

(** An optional string parameter read as an integer, when it is one. *)
Definition parsed (o : option string) : option Z :=
  match o with
  | Some s => match Py.int s with inr n => Some n | inl _ => None end
  | None => None
  end.

(** The narrowing steps of the specification (section 4.1, steps 2, 3, 4
    and 6) on a list of servers, and their composition in that order. *)
Definition narrow_category (category : option string) (l : list Server.t) :=
  match category with Some c => List.filter (has_category c) l | None => l end.

Definition truncate (qty : option Z) (l : list Server.t) :=
  match qty with Some n => take (Z.to_nat n) l | None => l end.

Definition is_member (user_id : option Z) (s : Server.t) : bool :=
  match user_id with
  | Some u => bool_decide (u ∈ Server.member s)
  | None => false
  end.

Definition narrow_member (by_user : bool) (user_id : option Z)
    (l : list Server.t) :=
  if by_user then List.filter (is_member user_id) l else l.

Definition narrow_id (serverid : option Z) (l : list Server.t) :=
  match serverid with Some n => List.filter (has_id n) l | None => l end.

Definition sequential_narrowing (request : Request.t) (table : list Server.t) :=
  narrow_id (parsed (param request "by_serverid"))
    (narrow_member (bool_decide (param request "by_user" = Some "true"))
       (User.id (Request.user request))
       (truncate (parsed (param request "qty"))
          (narrow_category (param request "category") table))).

(** The slice of [qty] is taken from a queryset that has not been
    evaluated: the clone that the category filter has made, or the class
    attribute of a process that has not evaluated it yet.  Otherwise the
    slice is a list. *)
Definition lazily (cache : option (list Server.t)) (request : Request.t)
  : Prop :=
  param request "category" ≠ None ∨ cache = None.

(** ** The documented parameters ([djchat/server/schema.py]) *)

Module Schema.

Inductive OpenApiTypes : Type := STR | INT | BOOL.

Inductive Location : Type := QUERY.

Record OpenApiParameter : Type :=
  { name : string;
    type : OpenApiTypes;
    location : Location;
    description : string }.

(** The [parameters] argument of [server_list_docs], lines 7 to 32. *)
Definition server_list_docs : list OpenApiParameter :=
  [ {| name := "category"; type := STR; location := QUERY;
       description := "Filter servers by category name" |};
    {| name := "qty"; type := INT; location := QUERY;
       description := "Limit the number of servers returned" |};
    {| name := "by_user"; type := BOOL; location := QUERY;
       description :=
         "Filter servers by a specific user (requires authentication)" |};
    {| name := "by_serverid"; type := INT; location := QUERY;
       description := "Filter by a specific server ID" |} ].

End Schema.

(** ** Outcomes of the handler *)

(** The request with the single value [v] for the parameter [key]. *)
Definition with_param (key v : string) (request : Request.t) : Request.t :=
  {| Request.query_params := <[key := [v]]> (Request.query_params request);
     Request.user := Request.user request |}.

(** A parameter is effective when giving it some value changes the outcome
    of some request. *)
Definition effective (key : string) : Prop :=
  ∃ db cache request v,
    fst (handle db cache (with_param key v request))
    ≠ fst (handle db cache request).

(** The request with the values [vs], in the order given, for the parameter
    [key]. *)
Definition with_values (key : string) (vs : list string) (request : Request.t)
  : Request.t :=
  {| Request.query_params := <[key := vs]> (Request.query_params request);
     Request.user := Request.user request |}.

(** The parameters the handler reads: the documented ones and
    [with_num_members], line 90. *)
Definition read_parameters : list string :=
  map Schema.name Schema.server_list_docs ++ ["with_num_members"].

(** The response with the rows [rows]. *)
Definition response_of (annotated : bool) (rows : list QuerySet.Row)
  : Response.t :=
  {| Response.data := rows; Response.context_num_members := annotated |}.

(** The outcome of a run read as the servers it lists. *)
Definition returned_servers (r : Py.Exception + Response.t)
  : Py.Exception + list Server.t :=
  match r with
  | inl e => inl e
  | inr resp => inr (servers (Response.data resp))
  end.

(** Two outcomes with the same error, or with the same servers up to their
    order. *)
Definition same_records (r1 r2 : Py.Exception + Response.t) : Prop :=
  match r1, r2 with
  | inl e1, inl e2 => e1 = e2
  | inr resp1, inr resp2 =>
      servers (Response.data resp1) ≡ₚ servers (Response.data resp2)
  | _, _ => False
  end.

(** A request that reads [self.queryset] as the class attribute itself:
    it passes the gate and asks for no filter, slice or annotation. *)
Definition plain (request : Request.t) : Prop :=
  param request "category" = None
  ∧ param request "qty" = None
  ∧ param request "by_user" ≠ Some "true"
  ∧ param request "with_num_members" ≠ Some "True"
  ∧ param request "by_serverid" = None.

(** [qty] is absent or a non-negative integer. *)
Definition qty_accepted (request : Request.t) : Prop :=
  ∀ q, param request "qty" = Some q → ∃ n, Py.int q = inr n ∧ 0 ≤ n.

(** The outcomes of the handler laid out by cases on the gate, on [qty], on
    [by_serverid] and on the state of the class attribute; shown below to be
    what [list] computes. *)
Definition outcome (db : QuerySet.Database) (cache : option (list Server.t))
    (request : Request.t) : Py.Exception + Response.t :=
  let annotated :=
    bool_decide (param request "with_num_members" = Some "True") in
  let category := param request "category" in
  let collection := narrow_category category (QuerySet.servers db) in
  if auth_gate request then inl AuthenticationRequired
  else
    match param request "qty", param request "by_serverid" with
    | None, None =>
        match category, annotated, cache with
        | None, false, Some cached =>
            inr (response_of false (map (row false) cached))
        | _, _, _ => inr (response_of annotated (yielded db annotated collection))
        end
    | None, Some s =>
        match Py.int s with
        | inl _ => inl InvalidParameter
        | inr n =>
            match List.filter (has_id n) collection with
            | [] => inl NotFound
            | l => inr (response_of annotated (yielded db annotated l))
            end
        end
    | Some q, o =>
        match Py.int q with
        | inl e => inl e
        | inr k =>
            if k <? 0
            then inl (Py.ValueError "Negative indexing is not supported.")
            else
              match category, cache with
              | None, Some cached =>
                  if annotated
                  then inl (Py.AttributeError
                              "'list' object has no attribute 'annotate'")
                  else
                    match o with
                    | Some _ =>
                        inl (Py.AttributeError
                               "'list' object has no attribute 'filter'")
                    | None =>
                        inr (response_of false
                               (take (Z.to_nat k) (map (row false) cached)))
                    end
              | _, _ =>
                  match o with
                  | Some s =>
                      match Py.int s with
                      | inl _ => inl InvalidParameter
                      | inr _ =>
                          inl (Py.TypeError
                                 "Cannot filter a query once a slice has been taken.")
                      end
                  | None =>
                      if 2 ^ 63 <=? k
                      then inl (Py.IntegrityError "datatype mismatch")
                      else
                        inr (response_of annotated
                               (take (Z.to_nat k)
                                  (yielded db annotated collection)))
                  end
              end
        end
    end.

(** ** Lemmas on the queryset interface *)

Lemma servers_rows annotated (l : list Server.t) :
  servers (map (row annotated) l) = l.
Proof. unfold servers. rewrite map_map. apply map_id. Qed.

Lemma filter_rows (f : QuerySet.Row → bool) (g : Server.t → bool)
    (l : list Server.t) :
  (∀ s, f (row false s) = g s) →
  List.filter f (map QuerySet.base_row l)
  = map QuerySet.base_row (List.filter g l).
Proof.
  intros Hfg. induction l as [|s l IH]; simpl; [done|].
  change (QuerySet.base_row s) with (row false s).
  rewrite Hfg. destruct (g s); simpl; by rewrite IH.
Qed.

Lemma filter_category_rows c (l : list Server.t) :
  map (QuerySet.constrain (QuerySet.category__name c))
    (List.filter (QuerySet.matches (QuerySet.category__name c))
       (map QuerySet.base_row l))
  = map QuerySet.base_row (List.filter (has_category c) l).
Proof. rewrite (filter_rows _ (has_category c)) by done. apply map_id. Qed.

Lemma filter_id_rows n (l : list Server.t) :
  map (QuerySet.constrain (QuerySet.id n))
    (List.filter (QuerySet.matches (QuerySet.id n)) (map QuerySet.base_row l))
  = map QuerySet.base_row (List.filter (has_id n) l).
Proof. rewrite (filter_rows _ (has_id n)) by done. apply map_id. Qed.

Lemma list_slice_stop_nonneg {A} k (l : list A) :
  0 ≤ k → Py.list_slice_stop k l = take (Z.to_nat k) l.
Proof.
  intros Hk. unfold Py.list_slice_stop.
  by destruct (Z.ltb_spec k 0); [lia|].
Qed.

(** *** The order of a grouping query *)

Lemma insert_grouped_perm db r rows :
  QuerySet.insert_grouped db r rows ≡ₚ r :: rows.
Proof.
  induction rows as [|x rows IH]; simpl; [done|].
  destruct (Nat.ltb _ _); [done|].
  rewrite IH. apply Permutation_swap.
Qed.

Lemma fold_insert_grouped_perm db rows acc :
  fold_left (λ acc r, QuerySet.insert_grouped db r acc) rows acc
  ≡ₚ acc ++ rows.
Proof.
  revert acc. induction rows as [|r rows IH]; intros acc; simpl.
  - by rewrite app_nil_r.
  - rewrite IH, insert_grouped_perm. apply Permutation_middle.
Qed.

Lemma grouped_perm db rows : QuerySet.grouped db rows ≡ₚ rows.
Proof. apply (fold_insert_grouped_perm db rows []). Qed.

Lemma insert_grouped_same_rank db r rows :
  Forall (λ x, QuerySet.rank_of db x = QuerySet.rank_of db r) rows →
  QuerySet.insert_grouped db r rows = (rows ++ [r])%list.
Proof.
  induction 1 as [|x rows Hx _ IH]; simpl; [done|].
  rewrite Hx, Nat.ltb_irrefl. by rewrite IH.
Qed.

Lemma fold_insert_grouped_same_rank db k rows acc :
  Forall (λ x, QuerySet.rank_of db x = k) acc →
  Forall (λ x, QuerySet.rank_of db x = k) rows →
  fold_left (λ acc r, QuerySet.insert_grouped db r acc) rows acc
  = (acc ++ rows)%list.
Proof.
  intros Hacc Hrows. revert acc Hacc.
  induction Hrows as [|r rows Hr _ IH]; intros acc Hacc; simpl.
  - by rewrite app_nil_r.
  - rewrite insert_grouped_same_rank
      by (eapply Forall_impl; [exact Hacc|]; intros; simpl in *; congruence).
    rewrite IH; [by rewrite <- app_assoc|].
    apply Forall_app. split; [done|]. by constructor.
Qed.

Lemma grouped_same_rank db k rows :
  Forall (λ x, QuerySet.rank_of db x = k) rows →
  QuerySet.grouped db rows = rows.
Proof. intros H. by apply (fold_insert_grouped_same_rank db k rows []). Qed.

Lemma insert_grouped_with_servers l db r rows :
  QuerySet.insert_grouped (with_servers l db) r rows
  = QuerySet.insert_grouped db r rows.
Proof.
  induction rows as [|x rows IH]; simpl; [done|].
  change (QuerySet.rank_of (with_servers l db)) with (QuerySet.rank_of db).
  by rewrite IH.
Qed.

Lemma grouped_with_servers l db rows :
  QuerySet.grouped (with_servers l db) rows = QuerySet.grouped db rows.
Proof.
  unfold QuerySet.grouped. generalize (@nil QuerySet.Row).
  induction rows as [|r rows IH]; intros acc; simpl; [done|].
  by rewrite IH, insert_grouped_with_servers.
Qed.

Lemma yielded_with_servers l db annotated (k : list Server.t) :
  yielded (with_servers l db) annotated k = yielded db annotated k.
Proof.
  unfold yielded, grouped_servers. by rewrite grouped_with_servers.
Qed.

Lemma grouped_base_rows db (l : list Server.t) :
  QuerySet.grouped db (map QuerySet.base_row l)
  = map QuerySet.base_row (grouped_servers db l).
Proof.
  unfold grouped_servers, servers.
  change (row false) with QuerySet.base_row.
  assert (Forall (λ r, QuerySet.base_row (QuerySet.instance r) = r)
            (QuerySet.grouped db (map QuerySet.base_row l))) as Hbase.
  { rewrite grouped_perm. apply Forall_forall.
    intros r (s & -> & _)%list_elem_of_fmap. done. }
  rewrite map_map. induction Hbase as [|r rows Hr _ IH]; simpl; [done|].
  by rewrite Hr, <- IH.
Qed.

Lemma grouped_servers_perm db (l : list Server.t) : grouped_servers db l ≡ₚ l.
Proof.
  unfold grouped_servers, servers. rewrite grouped_perm.
  change (servers (map (row false) l) ≡ₚ l). by rewrite servers_rows.
Qed.

Lemma grouped_servers_category db c (l : list Server.t) :
  Forall (λ s, has_category c s = true) l → grouped_servers db l = l.
Proof.
  intros Hl. unfold grouped_servers.
  rewrite (grouped_same_rank db
             (QuerySet.category_rank db {| Category.name := c |})).
  - apply servers_rows.
  - apply Forall_forall. intros r (s & -> & Hs)%list_elem_of_fmap.
    rewrite Forall_forall in Hl. specialize (Hl s Hs).
    apply bool_decide_eq_true in Hl. unfold QuerySet.rank_of. simpl.
    destruct (Server.category s) as [name]. simpl in Hl. by subst.
Qed.

Lemma grouped_servers_nil_inv db (l : list Server.t) :
  grouped_servers db l = [] → l = [].
Proof.
  intros Hg. apply Permutation_nil_r. by rewrite <- Hg, grouped_servers_perm.
Qed.

Lemma grouped_servers_nil db : grouped_servers db [] = [].
Proof. reflexivity. Qed.

Lemma grouped_servers_singleton db s : grouped_servers db [s] = [s].
Proof. reflexivity. Qed.

Lemma annotate_base_rows (l : list Server.t) :
  map QuerySet.annotate_row (map QuerySet.base_row l) = map (row true) l.
Proof. by rewrite map_map. Qed.

Lemma filter_category_Forall c (l : list Server.t) :
  Forall (λ s, has_category c s = true) (List.filter (has_category c) l).
Proof. apply Forall_forall. intros s Hs%list_elem_of_In. by apply filter_In in Hs as [_ ?]. Qed.

(** ** The handler's computations *)

Ltac unfold_monad :=
  unfold ServerListViewSet.bind, ServerListViewSet.ret, ServerListViewSet.call,
    ServerListViewSet.raise, ServerListViewSet.self_queryset,
    ServerListViewSet.set_self_queryset,
    ServerListViewSet.try_except_ValueError,
    ServerListViewSet.iterate_self_queryset.

Lemma int_raises s e : Py.int s = inl e → ∃ msg, e = Py.ValueError msg.
Proof. unfold Py.int. destruct (Py.int_literal _); intros [= <-]; eauto. Qed.

Lemma filter_raises k qs e :
  QuerySet.filter k qs = inl e → ∃ msg, e = Py.TypeError msg.
Proof.
  unfold QuerySet.filter. destruct (QuerySet.is_sliced qs); intros [= <-]; eauto.
Qed.

Lemma getattr_filter_raises o e :
  QuerySet.getattr_filter o = inl e → ∃ msg, e = Py.AttributeError msg.
Proof. destruct o; intros [= <-]; eauto. Qed.

Lemma getattr_filter_call_raises o f k e :
  QuerySet.getattr_filter o = inr f → f k = inl e → ∃ msg, e = Py.TypeError msg.
Proof.
  destruct o as [qs|rows]; [|done]. intros [= <-].
  destruct (QuerySet.filter k qs) eqn:Hf; intros [= <-].
  by apply filter_raises in Hf.
Qed.

Lemma getattr_annotate_raises o e :
  QuerySet.getattr_annotate o = inl e → ∃ msg, e = Py.AttributeError msg.
Proof. destruct o; intros [= <-]; eauto. Qed.

Lemma getattr_exists_raises db o e :
  QuerySet.getattr_exists db o = inl e → ∃ msg, e = Py.AttributeError msg.
Proof. destruct o; intros [= <-]; eauto. Qed.

Lemma getitem_raises k o e :
  QuerySet.getitem k o = inl e → ∃ msg, e = Py.ValueError msg.
Proof.
  destruct o as [qs|rows]; [|done]. simpl. unfold QuerySet.getitem_stop.
  destruct (k <? 0); [intros [= <-]; eauto|].
  by destruct (QuerySet.result_cache qs).
Qed.

Lemma fetch_raises db qs e :
  QuerySet.fetch db qs = inl e → ∃ msg, e = Py.IntegrityError msg.
Proof.
  unfold QuerySet.fetch, QuerySet.run.
  destruct (QuerySet.result_cache qs); [done|].
  destruct (QuerySet.high_mark qs); [|done].
  destruct (_ <=? _); intros [= <-]; eauto.
Qed.

Section RaisesOnly.

Context {A B : Type} (P : Py.Exception → Prop).

Lemma raises_only_ret (a : A) : raises_only P (ServerListViewSet.ret a).
Proof. by intros st e. Qed.

Lemma raises_only_raise (e : Py.Exception) :
  P e → raises_only P (ServerListViewSet.raise (A:=A) e).
Proof. intros He st e' [= <-]. exact He. Qed.

Lemma raises_only_call (r : Py.Exception + A) :
  (∀ e, r = inl e → P e) → raises_only P (ServerListViewSet.call r).
Proof. intros Hr st e. apply Hr. Qed.

Lemma raises_only_self_queryset :
  raises_only P ServerListViewSet.self_queryset.
Proof. by intros st e. Qed.

Lemma raises_only_set_self_queryset o :
  raises_only P (ServerListViewSet.set_self_queryset o).
Proof. by intros st e. Qed.

Lemma raises_only_iterate db :
  (∀ msg, P (Py.IntegrityError msg)) →
  raises_only P (ServerListViewSet.iterate_self_queryset db).
Proof.
  intros HP st e. unfold ServerListViewSet.iterate_self_queryset.
  destruct (ServerListViewSet.instance_queryset st) as [[qs|rows]|]; [|done|].
  - destruct (QuerySet.fetch db qs) eqn:Hf; [|done].
    intros [= <-]. by destruct (fetch_raises _ _ _ Hf) as [msg ->].
  - destruct (QuerySet.fetch db _) eqn:Hf; [|done].
    intros [= <-]. by destruct (fetch_raises _ _ _ Hf) as [msg ->].
Qed.

Lemma raises_only_bind (m : ServerListViewSet.M A)
    (k : A → ServerListViewSet.M B) :
  raises_only P m → (∀ a, raises_only P (k a)) →
  raises_only P (ServerListViewSet.bind m k).
Proof.
  intros Hm Hk st e. unfold ServerListViewSet.bind.
  destruct (m st) as [[e'|a] st'] eqn:Hmst.
  - intros [= <-]. apply (Hm st). by rewrite Hmst.
  - apply Hk.
Qed.

Lemma raises_only_try_except (body handler : ServerListViewSet.M A) :
  raises_only P body → raises_only P handler →
  raises_only P (ServerListViewSet.try_except_ValueError body handler).
Proof.
  intros Hb Hh st e. unfold ServerListViewSet.try_except_ValueError.
  destruct (body st) as [[e'|a] st'] eqn:Hbst; [|done].
  destruct e'; try (intros [= <-]; apply (Hb st); by rewrite Hbst).
  apply Hh.
Qed.

End RaisesOnly.

(** The call of the method that [getattr_filter] has answered. *)
Lemma raises_only_filter_call {A} (P : Py.Exception → Prop) o
    (k : (QuerySet.Lookup → Py.Exception + QuerySet.Object)
         → ServerListViewSet.M A) :
  (∀ msg, P (Py.AttributeError msg)) →
  (∀ f, QuerySet.getattr_filter o = inr f → raises_only P (k f)) →
  raises_only P
    (ServerListViewSet.bind
       (ServerListViewSet.call (QuerySet.getattr_filter o)) k).
Proof.
  intros HP Hk st e. unfold ServerListViewSet.bind, ServerListViewSet.call.
  destruct (QuerySet.getattr_filter o) as [e'|f] eqn:Hf.
  - intros [= <-]. by destruct (getattr_filter_raises _ _ Hf) as [msg ->].
  - by apply Hk.
Qed.

Ltac raises_only_step :=
  first
    [ apply raises_only_filter_call; [done|intros ? ?]
    | apply raises_only_bind; [|intros ?]
    | apply raises_only_ret
    | apply raises_only_self_queryset
    | apply raises_only_set_self_queryset
    | apply raises_only_iterate; done
    | apply raises_only_try_except
    | apply raises_only_raise
    | apply raises_only_call; intros ? [? ->]%int_raises
    | apply raises_only_call; intros ? [? ->]%getitem_raises
    | apply raises_only_call; intros ? [? ->]%getattr_annotate_raises
    | apply raises_only_call; intros ? [? ->]%getattr_exists_raises
    | match goal with
      | H : QuerySet.getattr_filter _ = inr ?f |- raises_only _ (ServerListViewSet.call (?f _)) =>
          apply raises_only_call;
          intros ? [? ->]%(getattr_filter_call_raises _ _ _ _ H)
      | |- raises_only _ (match ?x with _ => _ end) => destruct x
      end ].

(** ** The authentication gate *)

Lemma truthy_Some s : Py.truthy (Some s) = true ↔ s ≠ "".
Proof. simpl. by destruct (String.eqb_spec s ""). Qed.

Lemma auth_gate_restricted request :
  auth_gate request = true ↔ restricted request.
Proof.
  unfold auth_gate, restricted.
  rewrite orb_true_iff, andb_true_iff, negb_true_iff, bool_decide_eq_true.
  split; (intros [H|H]; [by left|right]).
  - destruct H as [Ht Ha].
    destruct (param request "by_serverid") as [s|]; [|done].
    exists s. by rewrite <- truthy_Some.
  - destruct H as (s & -> & Hs & Ha). by rewrite truthy_Some.
Qed.

Lemma auth_gate_open request :
  ¬ restricted request → auth_gate request = false.
Proof.
  rewrite <- auth_gate_restricted. by destruct (auth_gate request).
Qed.

Lemma not_restricted request :
  ¬ restricted request ↔ auth_gate request = false.
Proof. rewrite <- auth_gate_restricted. by destruct (auth_gate request). Qed.

Lemma list_gate_closed db request st :
  auth_gate request = true →
  ServerListViewSet.list db request st = (inl AuthenticationRequired, st).
Proof.
  unfold auth_gate, param. intros Hg. unfold ServerListViewSet.list.
  by rewrite Hg.
Qed.

Lemma list_gate_open db request st detail :
  auth_gate request = false →
  fst (ServerListViewSet.list db request st)
  ≠ inl (Py.AuthenticationFailed detail).
Proof.
  unfold auth_gate, param. intros Hg. unfold ServerListViewSet.list.
  rewrite Hg. intros He. revert st detail He.
  match goal with |- ∀ st detail, (?m st).1 = _ → _ =>
    enough (raises_only not_authentication m) as Hm
      by (intros st d Hd; by apply (Hm st _ Hd d)) end.
  repeat raises_only_step; done.
Qed.

(** With [by_user=true] the gate is closed whoever asks. *)
Lemma by_user_always_rejected db request st :
  param request "by_user" = Some "true" →
  ServerListViewSet.list db request st = (inl AuthenticationRequired, st).
Proof.
  intros Hu. apply list_gate_closed, auth_gate_restricted. by left.
Qed.

(** ** The outcomes of the handler, by cases *)

Ltac run :=
  unfold_monad;
  unfold QuerySet.getitem, QuerySet.getitem_stop, QuerySet.fetch, QuerySet.run;
  cbn -[QuerySet.grouped Py.int Z.pow Z.leb Z.ltb take List.filter].

Ltac exec_step :=
  first
    [ rewrite filter_category_rows
    | rewrite filter_id_rows
    | rewrite grouped_base_rows
    | rewrite annotate_base_rows
    | rewrite grouped_servers_nil
    | rewrite list_slice_stop_nonneg by lia
    | match goal with
      | |- context [match map _ (grouped_servers ?db ?l) with _ => _ end] =>
          let E := fresh "Hg" in
          destruct (grouped_servers db l) eqn:E;
          [by apply grouped_servers_nil_inv in E|]
      end
    | match goal with
      | |- context [Py.int ?s] =>
          let E := fresh "Hint" in
          destruct (Py.int s) as [?|?] eqn:E;
          [destruct (int_raises _ _ E) as [? ->]|]
      | |- context [?k <? 0] => destruct (Z.ltb_spec k 0)
      | |- context [2 ^ 63 <=? ?k] => destruct (Z.leb_spec (2 ^ 63) k)
      | |- context [bool_decide ?P] => destruct (bool_decide P) eqn:?
      | |- context [match List.filter ?f ?l with _ => _ end] =>
          destruct (List.filter f l) eqn:?
      | |- context [match map _ (List.filter ?f ?l) with _ => _ end] =>
          destruct (List.filter f l) eqn:?
      end ];
  run.

Lemma handle_outcome db cache request :
  fst (handle db cache request) = outcome db cache request.
Proof.
  unfold outcome, auth_gate, narrow_category, response_of, yielded, handle,
    ServerListViewSet.list, ServerListViewSet.start, param.
  destruct (bool_decide (_ = Some "true")); [by run|].
  destruct (Py.truthy _ && _); [by run|].
  destruct (QueryDict.get _ "category") as [c|];
    destruct (QueryDict.get _ "qty") as [q|];
    destruct (QueryDict.get _ "by_serverid") as [s|];
    destruct cache as [cached|];
    run; repeat exec_step; try done; try lia;
    repeat match goal with
      | H : _ = _ :: _ |- _ => rewrite H
      | H : _ = [] |- _ => rewrite H
      end; done.
Qed.

(** ** Lists of servers *)

Lemma filter_sublist {A} (f : A → bool) (l : list A) :
  sublist (List.filter f l) l.
Proof.
  induction l as [|a l IH]; simpl; [constructor|].
  destruct (f a); by constructor.
Qed.

Lemma filter_has_id_nil n l :
  (∀ srv, srv ∈ l → Server.id srv ≠ n) → List.filter (has_id n) l = [].
Proof.
  induction l as [|a l IH]; intros Hl; simpl; [done|].
  unfold has_id at 1. rewrite bool_decide_eq_false_2.
  - apply IH. intros srv Hsrv. apply Hl. by right.
  - apply Hl. by left.
Qed.

Lemma filter_has_id_unique n l srv :
  NoDup (map Server.id l) → srv ∈ l → Server.id srv = n →
  List.filter (has_id n) l = [srv].
Proof.
  induction l as [|a l IH]; simpl; intros Hnd Hin Hid; [by inversion Hin|].
  apply NoDup_cons in Hnd as [Ha Hnd].
  apply elem_of_cons in Hin as [->|Hin].
  - unfold has_id at 1. rewrite bool_decide_eq_true_2 by done.
    f_equal. apply filter_has_id_nil. intros s Hs Heq.
    apply Ha. rewrite Hid, <- Heq. by apply (list_elem_of_fmap_2 Server.id).
  - unfold has_id at 1. rewrite bool_decide_eq_false_2; [by apply IH|].
    intros Heq. apply Ha. rewrite Heq, <- Hid.
    by apply (list_elem_of_fmap_2 Server.id).
Qed.

Lemma NoDup_ids_sublist (l k : list Server.t) :
  sublist l k → NoDup (map Server.id k) → NoDup (map Server.id l).
Proof.
  intros Hs Hk. eapply sublist_NoDup; [exact Hk|by apply (fmap_sublist Server.id)].
Qed.

Lemma filter_has_id_elem n l srv :
  srv ∈ List.filter (has_id n) l ↔ srv ∈ l ∧ Server.id srv = n.
Proof.
  rewrite !list_elem_of_In, filter_In. unfold has_id.
  by rewrite bool_decide_eq_true.
Qed.

Lemma filter_has_id_nil_iff n l :
  List.filter (has_id n) l = [] ↔ ∀ srv, srv ∈ l → Server.id srv ≠ n.
Proof.
  split; [|apply filter_has_id_nil].
  intros Hnil srv Hin Hid.
  assert (srv ∈ List.filter (has_id n) l) as Hf by by apply filter_has_id_elem.
  rewrite Hnil in Hf. by inversion Hf.
Qed.

Lemma filter_has_id_cons n l srv k :
  List.filter (has_id n) l = srv :: k → srv ∈ l ∧ Server.id srv = n.
Proof. intros Hf. apply filter_has_id_elem. rewrite Hf. by left. Qed.

Lemma servers_take k (rows : list QuerySet.Row) :
  servers (take k rows) = take k (servers rows).
Proof. apply fmap_take. Qed.

Lemma servers_yielded_category db annotated c (l : list Server.t) :
  Forall (λ s, has_category c s = true) l →
  servers (yielded db annotated l) = l.
Proof.
  intros Hl. unfold yielded. destruct annotated.
  - by rewrite servers_rows, (grouped_servers_category db c).
  - apply servers_rows.
Qed.

Lemma servers_yielded_singleton db annotated s :
  servers (yielded db annotated [s]) = [s].
Proof. by destruct annotated. Qed.

Lemma servers_yielded_perm db annotated (l : list Server.t) :
  servers (yielded db annotated l) ≡ₚ l.
Proof.
  unfold yielded. destruct annotated; rewrite servers_rows; [|done].
  apply grouped_servers_perm.
Qed.

Lemma Forall_category_filter c (f : Server.t → bool) (l : list Server.t) :
  Forall (λ s, has_category c s = true) l →
  Forall (λ s, has_category c s = true) (List.filter f l).
Proof.
  rewrite !Forall_forall. intros Hl s Hs%list_elem_of_In.
  apply filter_In in Hs as [Hs _]. apply Hl. by apply list_elem_of_In.
Qed.

(** ** The authentication gate: properties *)

(** C1, as stated, fails: with [by_serverid] given as the empty string by an
    anonymous requester, [by_serverid] is present and the identity is
    anonymous, yet the handler does not raise the authentication error (it
    goes on to the lookup and answers "Invalid server id"). *)
Lemma auth_gate_empty_serverid_not_rejected :
  restricted_as_stated (mk_request [("by_serverid", "")] anonymous)
  ∧ handle five_db None (mk_request [("by_serverid", "")] anonymous)
    = (inl InvalidParameter, ServerListViewSet.start None).
Proof.
  split; [|by vm_compute].
  right. split; [|done]. exists "". by vm_compute.
Qed.

(** C1 (amended): the handler raises the authentication error if and only if
    [by_user] is true, or [by_serverid] is present and non-empty and the
    identity is anonymous; and when it does, no filtering step has run:
    [self.queryset] is the collection it started from. *)
Theorem auth_gate_iff (db : QuerySet.Database) (request : Request.t)
    (st : ServerListViewSet.State) :
  ((∃ detail, fst (ServerListViewSet.list db request st)
              = inl (Py.AuthenticationFailed detail))
   ↔ restricted request)
  ∧ (restricted request →
     ServerListViewSet.list db request st = (inl AuthenticationRequired, st)).
Proof.
  split; [split|].
  - intros [detail Hd]. apply auth_gate_restricted.
    destruct (auth_gate request) eqn:Hg; [done|].
    by destruct (list_gate_open db request st detail Hg).
  - intros Hr%auth_gate_restricted. eexists.
    by rewrite (list_gate_closed _ _ _ Hr).
  - intros Hr%auth_gate_restricted. by apply list_gate_closed.
Qed.

Lemma auth_gate_iff_witness :
  ServerListViewSet.list five_db (mk_request [("by_user", "true")] (logged_in 10))
    (ServerListViewSet.start None)
  = (inl AuthenticationRequired, ServerListViewSet.start None).
Proof.
  apply (proj2 (auth_gate_iff _ _ _)).
  left. by vm_compute.
Defined.

(** C2, at the failing input: an authenticated member asks for
    [category=Gaming], [qty=2], [by_user=true].  The sequential narrowing of
    the five servers is the single server 1, but the handler raises the
    authentication error at the gate and filters nothing, in whatever state
    the class attribute is. *)
Theorem by_user_authenticated_rejected :
  (∀ cache,
     handle five_db cache
       (mk_request [("category", "Gaming"); ("qty", "2"); ("by_user", "true")]
          (logged_in 10))
     = (inl AuthenticationRequired, ServerListViewSet.start cache))
  ∧ sequential_narrowing
      (mk_request [("category", "Gaming"); ("qty", "2"); ("by_user", "true")]
         (logged_in 10))
      five_servers
    = [mk_server 1 "Gaming" [10; 11]].
Proof.
  split; [|by vm_compute].
  intros cache. apply by_user_always_rejected. by vm_compute.
Qed.

(** C3, as stated, fails: an anonymous request with [by_serverid=5] and no
    [by_user] is stopped at the gate with the authentication error, although
    server 5 exists. *)
Lemma anonymous_serverid_rejected :
  param (mk_request [("by_serverid", "5")] anonymous) "by_user" = None
  ∧ handle five_db None (mk_request [("by_serverid", "5")] anonymous)
    = (inl AuthenticationRequired, ServerListViewSet.start None).
Proof. split; by vm_compute. Qed.

(** C3 (amended): for an anonymous identity with [by_user] absent, a present
    and non-empty [by_serverid] is rejected at the gate with the
    authentication error and is never resolved ([self.queryset] is
    untouched); only the empty string passes the gate. *)
Theorem anonymous_serverid_gate (db : QuerySet.Database) (request : Request.t)
    (st : ServerListViewSet.State) (s : string) :
  param request "by_serverid" = Some s →
  User.is_authenticated (Request.user request) = false →
  param request "by_user" = None →
  (s ≠ "" →
   ServerListViewSet.list db request st = (inl AuthenticationRequired, st))
  ∧ (s = "" →
     ∀ detail, fst (ServerListViewSet.list db request st)
               ≠ inl (Py.AuthenticationFailed detail)).
Proof.
  intros Hs Ha Hu. split.
  - intros Hne. apply list_gate_closed, auth_gate_restricted.
    right. by exists s.
  - intros -> detail. apply list_gate_open, auth_gate_open.
    intros [Hu'|(s' & Hs' & Hne & _)]; [congruence|].
    rewrite Hs in Hs'. by injection Hs' as <-.
Qed.

Lemma anonymous_serverid_gate_witness :
  ServerListViewSet.list five_db (mk_request [("by_serverid", "5")] anonymous)
    (ServerListViewSet.start None)
  = (inl AuthenticationRequired, ServerListViewSet.start None).
Proof.
  refine (proj1 (anonymous_serverid_gate _ _ _ "5" _ _ _) _).
  - by vm_compute.
  - reflexivity.
  - by vm_compute.
  - discriminate.
Defined.

(** ** The [by_serverid] lookup *)

(** C4, as stated, fails in two places.  For an anonymous requester a
    [by_serverid] that is not an integer gives the authentication error, not
    "Invalid server id"; and after a [qty] slice the lookup of an existing id
    is refused by the queryset instead of narrowing to that record. *)
Lemma serverid_lookup_not_reached :
  fst (handle five_db None (mk_request [("by_serverid", "abc")] anonymous))
  = inl AuthenticationRequired
  ∧ fst (handle five_db None
           (mk_request [("qty", "2"); ("by_serverid", "1")] (logged_in 10)))
    = inl (Py.TypeError "Cannot filter a query once a slice has been taken.").
Proof. split; by vm_compute. Qed.

(** C4 (amended): on a request that passes the gate and has no [qty], with
    [by_serverid] present: if it does not parse as an integer the handler
    fails with "Invalid server id"; if it parses and no record of the
    (category-narrowed) collection has that id, with "Server not found";
    otherwise the result is the single record with that id (ids being
    unique).  This holds in every state of the class attribute. *)
Theorem serverid_lookup (db : QuerySet.Database)
    (cache : option (list Server.t)) (request : Request.t) (s : string) :
  param request "by_serverid" = Some s →
  ¬ restricted request →
  param request "qty" = None →
  NoDup (map Server.id (QuerySet.servers db)) →
  (∀ e, Py.int s = inl e →
        fst (handle db cache request) = inl InvalidParameter)
  ∧ (∀ n, Py.int s = inr n →
       ((∀ srv, srv ∈ narrow_category (param request "category")
                        (QuerySet.servers db) →
                Server.id srv ≠ n) →
        fst (handle db cache request) = inl NotFound)
       ∧ (∀ srv, srv ∈ narrow_category (param request "category")
                         (QuerySet.servers db) →
                 Server.id srv = n →
          ∃ resp, fst (handle db cache request) = inr resp
                  ∧ servers (Response.data resp) = [srv])).
Proof.
  intros Hs Hg%auth_gate_open Hq Hnd.
  assert (NoDup (map Server.id
            (narrow_category (param request "category")
               (QuerySet.servers db)))) as Hnd'.
  { destruct (param request "category"); simpl; [|done].
    eapply NoDup_ids_sublist; [apply filter_sublist|done]. }
  rewrite handle_outcome. unfold outcome. rewrite Hg, Hq, Hs.
  split; [by intros e ->|intros n ->].
  split; [intros Hnone|intros srv Hin Hid].
  - by rewrite (filter_has_id_nil _ _ Hnone).
  - rewrite (filter_has_id_unique _ _ _ Hnd' Hin Hid).
    eexists. split; [done|]. simpl. apply servers_yielded_singleton.
Qed.

Lemma serverid_lookup_witness :
  ∃ resp,
    fst (handle five_db None
           (mk_request [("category", "Gaming"); ("by_serverid", "5")]
              (logged_in 10)))
    = inr resp
    ∧ servers (Response.data resp) = [mk_server 5 "Gaming" [12]].
Proof.
  refine (proj2 (proj2 (serverid_lookup five_db None _ "5" _ _ _ _) 5 _)
            (mk_server 5 "Gaming" [12]) _ _).
  - by vm_compute.
  - intros [H|(s & H1 & H2 & H3)]; vm_compute in *; discriminate.
  - by vm_compute.
  - apply (bool_decide_unpack _). by vm_compute.
  - by vm_compute.
  - apply list_elem_of_In. vm_compute. tauto.
  - reflexivity.
Defined.

(** ** Truncation by [qty] *)

(** C5, as stated, fails on negative values: [qty=-2] is not tolerated, the
    queryset refuses the negative bound and the handler ends with that
    error. *)
Lemma negative_qty_refused :
  fst (handle five_db None (mk_request [("qty", "-2")] (logged_in 10)))
  = inl (Py.ValueError "Negative indexing is not supported.").
Proof. by vm_compute. Qed.

(** C5 (amended): with [qty] present and an integer [n], on a request that
    passes the gate and has no [by_serverid].  A negative [n] is refused
    with an error.  For [0 ≤ n], when the slice is taken from a queryset
    that has not been evaluated, the bound becomes the limit of the query:
    below [2 ^ 63] the result is the prefix of at most [n] rows of the
    (category-narrowed) collection in the order in which the database yields
    it, the stored order without [with_num_members], the order of the
    grouping with it (so zero is tolerated and gives the empty result, and a
    bound beyond the length gives everything); from [2 ^ 63] on the database
    refuses the query.  When the class attribute has been evaluated and no
    category is given, the slice is taken from its cached list: without
    [with_num_members] the result is the prefix of at most [n] of the cached
    servers. *)
Theorem qty_truncates (db : QuerySet.Database)
    (cache : option (list Server.t)) (request : Request.t)
    (q : string) (n : Z) :
  param request "qty" = Some q →
  Py.int q = inr n →
  param request "by_user" ≠ Some "true" →
  param request "by_serverid" = None →
  (n < 0 →
   fst (handle db cache request)
   = inl (Py.ValueError "Negative indexing is not supported."))
  ∧ (0 ≤ n → n < 2 ^ 63 → lazily cache request →
     ∃ resp,
       fst (handle db cache request) = inr resp
       ∧ Response.data resp
         = take (Z.to_nat n)
             (yielded db
                (bool_decide (param request "with_num_members" = Some "True"))
                (narrow_category (param request "category")
                   (QuerySet.servers db)))
       ∧ Z.of_nat (length (Response.data resp)) ≤ n
       ∧ (param request "with_num_members" ≠ Some "True" →
          servers (Response.data resp)
          = take (Z.to_nat n)
              (narrow_category (param request "category")
                 (QuerySet.servers db))))
  ∧ (2 ^ 63 ≤ n → lazily cache request →
     fst (handle db cache request)
     = inl (Py.IntegrityError "datatype mismatch"))
  ∧ (∀ cached,
       0 ≤ n → cache = Some cached → param request "category" = None →
       param request "with_num_members" ≠ Some "True" →
       ∃ resp,
         fst (handle db cache request) = inr resp
         ∧ servers (Response.data resp) = take (Z.to_nat n) cached).
Proof.
  intros Hq Hn Hu Hs.
  assert (auth_gate request = false) as Hg.
  { unfold auth_gate. by rewrite Hs, (bool_decide_eq_false_2 _ Hu). }
  rewrite handle_outcome. unfold outcome, lazily.
  rewrite Hg, Hq, Hn, Hs.
  split; [|split; [|split]].
  - intros Hneg. by destruct (Z.ltb_spec n 0); [|lia].
  - intros Hpos Hlt Hlazy.
    destruct (Z.ltb_spec n 0); [lia|].
    destruct (Z.leb_spec (2 ^ 63) n); [lia|].
    destruct (param request "category") as [c|] eqn:Hc;
      [|destruct cache as [cached|]; [by destruct Hlazy|]];
      (eexists; split; [reflexivity|]; simpl; split; [done|];
       split; [rewrite length_take; lia|];
       intros Hw; rewrite (bool_decide_eq_false_2 _ Hw); simpl;
       by rewrite <- fmap_take, servers_rows).
  - intros Hbig Hlazy.
    destruct (Z.ltb_spec n 0); [lia|].
    destruct (Z.leb_spec (2 ^ 63) n); [|lia].
    destruct (param request "category") as [c|];
      [done|destruct cache; [by destruct Hlazy|done]].
  - intros cached Hpos -> Hc Hw.
    destruct (Z.ltb_spec n 0); [lia|].
    rewrite Hc, (bool_decide_eq_false_2 _ Hw).
    eexists. split; [reflexivity|]. simpl.
    by rewrite <- fmap_take, servers_rows.
Qed.

Lemma qty_truncates_witness :
  ∃ resp,
    fst (handle five_db None (mk_request [("qty", "2")] anonymous)) = inr resp
    ∧ Response.data resp
      = take 2
          (yielded five_db
             (bool_decide
                (param (mk_request [("qty", "2")] anonymous) "with_num_members"
                 = Some "True"))
             (narrow_category
                (param (mk_request [("qty", "2")] anonymous) "category")
                five_servers))
    ∧ Z.of_nat (length (Response.data resp)) ≤ 2
    ∧ (param (mk_request [("qty", "2")] anonymous) "with_num_members"
       ≠ Some "True" →
       servers (Response.data resp)
       = take 2
           (narrow_category
              (param (mk_request [("qty", "2")] anonymous) "category")
              five_servers)).
Proof.
  refine (proj1 (proj2 (qty_truncates five_db None _ "2" 2 _ _ _ _)) _ _ _).
  - by vm_compute.
  - by vm_compute.
  - by vm_compute.
  - by vm_compute.
  - lia.
  - lia.
  - by right.
Defined.

(** [qty=2] on the five servers returns exactly the first two. *)
Example qty_2_of_5 :
  returned_ids (fst (handle five_db None (mk_request [("qty", "2")] anonymous)))
  = inr [1; 2].
Proof. by vm_compute. Qed.

(** [qty=100] on the five servers returns all five. *)
Example qty_100_of_5 :
  returned_ids
    (fst (handle five_db None (mk_request [("qty", "100")] anonymous)))
  = inr [1; 2; 3; 4; 5].
Proof. by vm_compute. Qed.

(** [qty=0] is tolerated and returns nothing. *)
Example qty_0_of_5 :
  returned_ids (fst (handle five_db None (mk_request [("qty", "0")] anonymous)))
  = inr [].
Proof. by vm_compute. Qed.

(** With [with_num_members=True] the limit cuts the rows in the order of the
    grouping: all five come as 1, 3, 5, 2, 4, and [qty=2] keeps 1 and 3. *)
Example qty_2_of_5_grouped :
  returned_ids
    (fst (handle five_db None
            (mk_request [("with_num_members", "True")] anonymous)))
  = inr [1; 3; 5; 2; 4]
  ∧ returned_ids
      (fst (handle five_db None
              (mk_request [("qty", "2"); ("with_num_members", "True")]
                 anonymous)))
    = inr [1; 3].
Proof. split; by vm_compute. Qed.

(** A bound of [2 ^ 63] is accepted by the slice and refused by the database
    when the rows are fetched. *)
Example qty_beyond_database :
  fst (handle five_db None
         (mk_request [("qty", "9223372036854775808")] anonymous))
  = inl (Py.IntegrityError "datatype mismatch").
Proof. by vm_compute. Qed.

(** ** The member-count annotation *)

(** What a response holds, whenever the handler returns one: without
    [with_num_members] the rows of the servers listed, unannotated; with it
    the annotated rows of the narrowed collection in the order of the
    grouping, cut by [qty]. *)
Lemma handle_returns db cache request resp :
  fst (handle db cache request) = inr resp →
  Response.context_num_members resp
  = bool_decide (param request "with_num_members" = Some "True")
  ∧ (param request "with_num_members" ≠ Some "True" →
     Response.data resp = map (row false) (servers (Response.data resp)))
  ∧ (param request "with_num_members" = Some "True" →
     Response.data resp
     = map (row true)
         (truncate (parsed (param request "qty"))
            (grouped_servers db
               (narrow_id (parsed (param request "by_serverid"))
                  (narrow_category (param request "category")
                     (QuerySet.servers db)))))).
Proof.
  rewrite handle_outcome. unfold outcome, parsed, yielded.
  destruct (auth_gate request); [done|].
  destruct (param request "qty") as [q|];
    [destruct (Py.int q) as [e|k]; [done|destruct (k <? 0); [done|]]|];
    (destruct (param request "by_serverid") as [s|];
     [destruct (Py.int s) as [e'|m]; [|simpl]|]);
    destruct (param request "category") as [c|];
    destruct cache as [cached|];
    destruct (bool_decide (param request "with_num_members" = Some "True"))
      eqn:Hw;
    try destruct (_ <=? _);
    try (destruct (List.filter (has_id m) _) eqn:Hf);
    try done;
    intros [= <-]; (split; [done|]); simpl;
    (split; intros Hw';
     [try (by apply bool_decide_eq_true in Hw);
      by rewrite <- ?fmap_take, ?servers_rows
     |try (by rewrite bool_decide_eq_true_2 in Hw);
      by rewrite <- ?fmap_take]).
Qed.

(** C6: whenever the handler returns, the [num_members] entry of the
    serializer context is set if and only if [with_num_members] is literally
    ["True"]; in that case the records returned are those of the narrowed
    collection, in the order of the grouping and cut by [qty] (all of them,
    each once, when there is no [qty]), and every one carries [num_members],
    the number of its member associations; otherwise none carries it. *)
Theorem num_members_annotation (db : QuerySet.Database)
    (cache : option (list Server.t)) (request : Request.t)
    (resp : Response.t) :
  fst (handle db cache request) = inr resp →
  (Response.context_num_members resp = true
   ↔ param request "with_num_members" = Some "True")
  ∧ (param request "with_num_members" = Some "True" →
     (∀ r, r ∈ Response.data resp →
           QuerySet.num_members r
           = Some (size (Server.member (QuerySet.instance r))))
     ∧ Response.data resp
       = map (row true)
           (truncate (parsed (param request "qty"))
              (grouped_servers db
                 (narrow_id (parsed (param request "by_serverid"))
                    (narrow_category (param request "category")
                       (QuerySet.servers db)))))
     ∧ (param request "qty" = None →
        servers (Response.data resp)
        ≡ₚ narrow_id (parsed (param request "by_serverid"))
             (narrow_category (param request "category")
                (QuerySet.servers db))))
  ∧ (param request "with_num_members" ≠ Some "True" →
     ∀ r, r ∈ Response.data resp → QuerySet.num_members r = None).
Proof.
  intros (Hctx & Hplain & Hcount)%handle_returns.
  split; [rewrite Hctx; apply bool_decide_eq_true|]. split.
  - intros Hw. specialize (Hcount Hw). split; [|split; [done|]].
    + rewrite Hcount. by intros r (s & -> & _)%list_elem_of_fmap.
    + intros Hq. rewrite Hcount, servers_rows, Hq. simpl.
      apply grouped_servers_perm.
  - intros Hw r Hr. rewrite (Hplain Hw) in Hr.
    by apply list_elem_of_fmap in Hr as (s & -> & _).
Qed.

Lemma num_members_annotation_witness :
  QuerySet.num_members (row true (mk_server 2 "Music" [10]))
  = Some (size (Server.member
                  (QuerySet.instance (row true (mk_server 2 "Music" [10]))))).
Proof.
  refine (proj1 (proj1 (proj2 (num_members_annotation five_db None
            (mk_request [("category", "Music"); ("with_num_members", "True")]
               anonymous)
            {| Response.data := [row true (mk_server 2 "Music" [10])];
               Response.context_num_members := true |} _)) _) _ _).
  - by vm_compute.
  - by vm_compute.
  - simpl. left.
Defined.

(** The exact casing counts the members of each record. *)
Example with_num_members_exact_casing :
  match fst (handle five_db None
               (mk_request [("with_num_members", "True")] anonymous)) with
  | inr resp => Some (Response.context_num_members resp,
                      ids (Response.data resp),
                      map QuerySet.num_members (Response.data resp))
  | inl _ => None
  end
  = Some (true, [1; 3; 5; 2; 4], [Some 2; Some 0; Some 1; Some 1; Some 3]%nat).
Proof. by vm_compute. Qed.

(** The lowercase spelling does not trigger the annotation. *)
Example with_num_members_lowercase :
  match fst (handle five_db None
               (mk_request [("with_num_members", "true")] anonymous)) with
  | inr resp => Some (Response.context_num_members resp,
                      ids (Response.data resp),
                      map QuerySet.num_members (Response.data resp))
  | inl _ => None
  end
  = Some (false, [1; 2; 3; 4; 5], [None; None; None; None; None]).
Proof. by vm_compute. Qed.

(** [by_user] is read the other way round: the lowercase spelling sets it
    (and closes the gate), the capitalised one does not. *)
Example by_user_casing :
  returned_ids
    (fst (handle five_db None (mk_request [("by_user", "True")] anonymous)))
  = inr [1; 2; 3; 4; 5]
  ∧ fst (handle five_db None (mk_request [("by_user", "true")] anonymous))
    = inl AuthenticationRequired.
Proof. split; by vm_compute. Qed.

(** ** Narrowing by [category] *)

Lemma param_without_eq key request : param (without key request) key = None.
Proof. unfold param, without, QueryDict.get; simpl. by rewrite lookup_delete_eq. Qed.

Lemma param_without_ne key key' request :
  key ≠ key' → param (without key request) key' = param request key'.
Proof.
  intros Hne. unfold param, without, QueryDict.get; simpl.
  by rewrite lookup_delete_ne.
Qed.

Lemma auth_gate_without_category request :
  auth_gate (without "category" request) = auth_gate request.
Proof. unfold auth_gate. by rewrite !param_without_ne. Qed.

(** The category step comes first after the gate: a request with [category]
    ends, whatever the state of the class attribute, as the same request
    without it does in a fresh process over the narrowed table. *)
Lemma category_step_first db cache request c :
  param request "category" = Some c →
  fst (handle db cache request)
  = fst (handle (with_servers (List.filter (has_category c) (QuerySet.servers db)) db)
           None (without "category" request)).
Proof.
  intros Hc. rewrite !handle_outcome. unfold outcome.
  rewrite auth_gate_without_category, param_without_eq,
    !param_without_ne by done.
  rewrite Hc. simpl.
  destruct (auth_gate request); [done|].
  destruct (param request "qty") as [q|];
    [destruct (Py.int q) as [e|k]; [done|destruct (k <? 0); [done|]]|];
    (destruct (param request "by_serverid") as [s|];
     [destruct (Py.int s) as [e'|m]; [done|]|]);
    destruct (bool_decide (param request "with_num_members" = Some "True"));
    try destruct (List.filter (has_id m) _);
    by rewrite ?yielded_with_servers.
Qed.

(** C7: with [category] present, the collection is narrowed to exactly the
    records whose category name is equal to the parameter, in their order:
    the handler ends as it does without [category] on the table narrowed so;
    the narrowed table is the result when no later step applies; and every
    result of the handler is drawn, in order, from those records. *)
Theorem category_narrows (db : QuerySet.Database)
    (cache : option (list Server.t)) (request : Request.t) (c : string) :
  param request "category" = Some c →
  fst (handle db cache request)
  = fst (handle
           (with_servers
              (List.filter
                 (λ s, bool_decide (Category.name (Server.category s) = c))
                 (QuerySet.servers db))
              db)
           None (without "category" request))
  ∧ (param request "by_user" ≠ Some "true" →
     param request "qty" = None →
     param request "by_serverid" = None →
     ∃ resp, fst (handle db cache request) = inr resp
             ∧ servers (Response.data resp)
               = List.filter
                   (λ s, bool_decide (Category.name (Server.category s) = c))
                   (QuerySet.servers db))
  ∧ (∀ resp, fst (handle db cache request) = inr resp →
       sublist (servers (Response.data resp))
         (List.filter
            (λ s, bool_decide (Category.name (Server.category s) = c))
            (QuerySet.servers db))).
Proof.
  intros Hc. split; [by apply category_step_first|].
  change (λ s, bool_decide (Category.name (Server.category s) = c))
    with (has_category c).
  pose proof (filter_category_Forall c (QuerySet.servers db)) as Hall.
  rewrite handle_outcome. unfold outcome. rewrite Hc. simpl. split.
  - intros Hu Hq Hs.
    assert (auth_gate request = false) as ->.
    { unfold auth_gate. by rewrite Hs, (bool_decide_eq_false_2 _ Hu). }
    rewrite Hq, Hs. eexists. split; [reflexivity|]. simpl.
    by apply (servers_yielded_category db _ c).
  - intros resp. destruct (auth_gate request); [done|].
    destruct (param request "qty") as [q|];
      [destruct (Py.int q) as [e|k]; [done|destruct (k <? 0); [done|]]|];
      (destruct (param request "by_serverid") as [s|];
       [destruct (Py.int s) as [e'|m]; [done|]|]); try done.
    + destruct (_ <=? _); [done|]. intros [= <-]. simpl.
      rewrite servers_take, (servers_yielded_category db _ c) by done.
      apply sublist_take.
    + destruct (List.filter (has_id m) _) as [|srv l] eqn:Hf; [done|].
      intros [= <-]. simpl. rewrite <- Hf.
      rewrite (servers_yielded_category db _ c)
        by by apply Forall_category_filter.
      apply filter_sublist.
    + intros [= <-]. simpl.
      by rewrite (servers_yielded_category db _ c).
Qed.

Lemma category_narrows_witness :
  ∃ resp,
    fst (handle five_db None (mk_request [("category", "Gaming")] anonymous))
    = inr resp
    ∧ servers (Response.data resp)
      = List.filter
          (λ s, bool_decide (Category.name (Server.category s) = "Gaming"))
          five_servers.
Proof.
  refine (proj1 (proj2 (category_narrows five_db None _ "Gaming" _)) _ _ _).
  - by vm_compute.
  - by vm_compute.
  - by vm_compute.
  - by vm_compute.
Defined.

(** The match is exact: server 4, in category ["gaming"], is left out. *)
Example category_gaming :
  returned_ids
    (fst (handle five_db None (mk_request [("category", "Gaming")] anonymous)))
  = inr [1; 3; 5].
Proof. by vm_compute. Qed.

(** ** The lookup after the earlier steps *)

(** C8, at the failing inputs.  Server 1 is in category Gaming, server 2 is
    the second of the table, and user 10 is not a member of server 3.  After
    [category=Music] the lookup of id 1 answers "Server not found", as the
    claim says.  After [qty=1] the lookup of id 2 does not: the queryset
    refuses to filter a slice.  After [by_user=true] the lookup of id 3 does
    not either: the request of the authenticated user 10 is stopped at the
    gate. *)
Theorem serverid_after_earlier_steps :
  fst (handle five_db None
         (mk_request [("category", "Music"); ("by_serverid", "1")]
            (logged_in 10)))
  = inl NotFound
  ∧ fst (handle five_db None
           (mk_request [("qty", "1"); ("by_serverid", "2")] (logged_in 10)))
    = inl (Py.TypeError "Cannot filter a query once a slice has been taken.")
  ∧ fst (handle five_db None
           (mk_request [("by_user", "true"); ("by_serverid", "3")]
              (logged_in 10)))
    = inl AuthenticationRequired.
Proof. repeat split; by vm_compute. Qed.

(** With [category] as the only earlier step the lookup does run on the
    narrowed collection: an id that the category filter has excluded is not
    found, whatever the table holds. *)
Lemma serverid_excluded_by_category db cache (request : Request.t)
    (c s : string) (n : Z) :
  param request "category" = Some c →
  param request "by_serverid" = Some s →
  Py.int s = inr n →
  ¬ restricted request →
  param request "qty" = None →
  (∀ srv, srv ∈ QuerySet.servers db → Server.id srv = n →
          Category.name (Server.category srv) ≠ c) →
  fst (handle db cache request) = inl NotFound.
Proof.
  intros Hc Hs Hn Hg%auth_gate_open Hq Hex.
  rewrite handle_outcome. unfold outcome. rewrite Hg, Hq, Hs, Hn, Hc. simpl.
  rewrite filter_has_id_nil; [done|].
  intros srv Hin Hid.
  apply list_elem_of_In, filter_In in Hin as [Hin Hcat].
  apply (Hex srv); [by apply list_elem_of_In|done|].
  by apply bool_decide_eq_true in Hcat.
Qed.

(** ** A [qty] that is not an integer *)

(** C9, as stated, fails: with [by_user=true] a request whose [qty] is not an
    integer ends with the authentication error, one of the documented
    kinds. *)
Lemma bad_qty_behind_closed_gate :
  fst (handle five_db None
         (mk_request [("by_user", "true"); ("qty", "abc")] anonymous))
  = inl AuthenticationRequired
  ∧ documented AuthenticationRequired = true.
Proof. split; by vm_compute. Qed.

(** C9 (amended): on every request that passes the gate, a [qty] that is
    present and does not parse as an integer makes the handler end with the
    [ValueError] of [int], which is none of the documented error kinds, and
    not with a result. *)
Theorem qty_not_integer (db : QuerySet.Database)
    (cache : option (list Server.t)) (request : Request.t)
    (q : string) (e : Py.Exception) :
  param request "qty" = Some q →
  Py.int q = inl e →
  ¬ restricted request →
  fst (handle db cache request) = inl e
  ∧ documented e = false
  ∧ ∃ msg, e = Py.ValueError msg.
Proof.
  intros Hq He Hg%auth_gate_open.
  destruct (int_raises _ _ He) as [msg ->].
  split; [|by eauto].
  rewrite handle_outcome. unfold outcome. by rewrite Hg, Hq, He.
Qed.

Lemma qty_not_integer_witness :
  fst (handle five_db None
         (mk_request [("category", "Gaming"); ("qty", "abc")] anonymous))
  = inl (Py.ValueError "invalid literal for int() with base 10: 'abc'").
Proof.
  refine (proj1 (qty_not_integer five_db None _ "abc" _ _ _ _)).
  - by vm_compute.
  - by vm_compute.
  - intros [H|(s & H1 & H2 & H3)]; vm_compute in *; discriminate.
Defined.

(** ** An empty [by_serverid] *)

(** C10, as stated, fails: with [by_user=true] the request does not skip the
    gate; with a [qty] that is not an integer the handler stops before the
    [by_serverid] branch; and in a process whose class attribute has been
    evaluated, a [qty] without [category] leaves a list, on which the lookup
    of [filter] fails before [int] is called. *)
Lemma empty_serverid_other_outcomes :
  fst (handle five_db None
         (mk_request [("by_serverid", ""); ("by_user", "true")] anonymous))
  = inl AuthenticationRequired
  ∧ fst (handle five_db None
           (mk_request [("by_serverid", ""); ("qty", "abc")] anonymous))
    = inl (Py.ValueError "invalid literal for int() with base 10: 'abc'")
  ∧ fst (handle five_db (Some five_servers)
           (mk_request [("by_serverid", ""); ("qty", "2")] anonymous))
    = inl (Py.AttributeError "'list' object has no attribute 'filter'").
Proof. repeat split; by vm_compute. Qed.

(** C10 (amended): when [by_serverid] is the empty string, [by_user] is not
    true and [qty] is absent, or is a non-negative integer whose slice is
    taken from a queryset that has not been evaluated, the request passes
    the gate whoever asks, anonymous included, enters the [by_serverid]
    branch, where [int] fails on the empty string, and the handler raises
    "Invalid server id". *)
Theorem empty_serverid (db : QuerySet.Database)
    (cache : option (list Server.t)) (request : Request.t) :
  param request "by_serverid" = Some "" →
  param request "by_user" ≠ Some "true" →
  (∀ q, param request "qty" = Some q →
        lazily cache request ∧ ∃ n, Py.int q = inr n ∧ 0 ≤ n) →
  (∀ detail, fst (handle db cache request)
             ≠ inl (Py.AuthenticationFailed detail))
  ∧ (∃ msg, Py.int "" = inl (Py.ValueError msg))
  ∧ fst (handle db cache request) = inl InvalidParameter.
Proof.
  intros Hs Hu Hq.
  assert (fst (handle db cache request) = inl InvalidParameter) as Hout.
  { rewrite handle_outcome. unfold outcome, auth_gate.
    rewrite Hs, (bool_decide_eq_false_2 _ Hu). simpl.
    destruct (param request "qty") as [q|]; [|done].
    destruct (Hq q eq_refl) as (Hlazy & n & -> & Hsign).
    destruct (Z.ltb_spec n 0); [lia|].
    destruct (param request "category") eqn:Hc; [done|].
    destruct cache; [|done].
    destruct Hlazy as [Hl|Hl]; [by rewrite Hc in Hl|done]. }
  split; [|split; [by eexists|done]].
  intros detail. by rewrite Hout.
Qed.

Lemma empty_serverid_witness :
  fst (handle five_db None
         (mk_request [("by_serverid", ""); ("qty", "2")] anonymous))
  = inl InvalidParameter.
Proof.
  refine (proj2 (proj2 (empty_serverid five_db None _ _ _ _))).
  - by vm_compute.
  - by vm_compute.
  - intros q Hq. vm_compute in Hq. injection Hq as <-.
    split; [by right|]. exists 2. split; [by vm_compute|lia].
Defined.

(** ** When each outcome occurs *)

#[local] Set Warnings "-clear-no-such-hyp".

(** The cases of [outcome], with what [int] answers in each. *)
Ltac by_cases db cache request :=
  rewrite (handle_outcome db cache request);
  unfold outcome, qty_accepted, lazily;
  try rewrite not_restricted;
  destruct (auth_gate request);
  [|destruct (param request "qty") as [q|];
    [destruct (Py.int q) as [e|k] eqn:Hq;
     [destruct (int_raises _ _ Hq) as [? ->]
     |destruct (Z.ltb_spec k 0); [|destruct (Z.leb_spec (2 ^ 63) k)]]|];
    (destruct (param request "by_serverid") as [s|];
     [destruct (Py.int s) as [e'|m] eqn:Hs;
      [destruct (int_raises _ _ Hs) as [? ->]|]|]);
    destruct (param request "category") as [c|];
    destruct cache as [cached|];
    destruct (bool_decide (param request "with_num_members" = Some "True"))
      eqn:Hw;
    first [apply bool_decide_eq_true in Hw|apply bool_decide_eq_false in Hw]].

Ltac id_cases :=
  try (match goal with
       | |- context [List.filter (has_id ?m) ?l] =>
           let Hf := fresh "Hf" in
           destruct (List.filter (has_id m) l) as [|? ?] eqn:Hf;
           [rewrite filter_has_id_nil_iff in Hf
           |apply filter_has_id_cons in Hf]
       end).

Ltac use_hyps :=
  repeat match goal with
    | H : ∀ q, Some ?a = Some q → _ |- _ => specialize (H a eq_refl)
    | H : ∀ q, None = Some q → _ |- _ => clear H
    | H : ∃ _, _ |- _ => destruct H
    | H : _ ∧ _ |- _ => destruct H
    | H : Some ?a = Some ?b |- _ =>
        let E := fresh "E" in
        assert (b = a) as E by congruence;
        clear H; first [subst b|subst a]
    | H : Some _ = None |- _ => discriminate H
    | H : None = Some _ |- _ => discriminate H
    | H1 : ?t = inr ?a, H2 : ?t = inr ?b |- _ =>
        let E := fresh "E" in
        assert (b = a) as E by congruence;
        clear H2; first [subst b|subst a]
    | H1 : ?t = inr ?a, H2 : ?t = inl ?b |- _ =>
        exfalso; congruence
    end.

Ltac finish :=
  use_hyps;
  first
    [ done | congruence | lia | naive_solver (eauto; lia)
    | split; [done|]; eexists; split; [reflexivity|];
      intros; use_hyps; first [lia|congruence|done] ].

(** X1: the handler returns a response exactly when the request passes the
    gate; [qty], if present, comes without [by_serverid] and is a
    non-negative integer, below [2 ^ 63] when its slice is taken from a
    queryset that has not been evaluated, and without [with_num_members]
    when it is taken from the cached list; and [by_serverid], if present, is
    an integer and the id of a record of the category-narrowed table. *)
Theorem returns_iff (db : QuerySet.Database) (cache : option (list Server.t))
    (request : Request.t) :
  (∃ resp, fst (handle db cache request) = inr resp)
  ↔ ¬ restricted request
    ∧ (∀ q, param request "qty" = Some q →
         param request "by_serverid" = None
         ∧ ∃ n, Py.int q = inr n ∧ 0 ≤ n
                ∧ (lazily cache request → n < 2 ^ 63)
                ∧ (¬ lazily cache request →
                   param request "with_num_members" ≠ Some "True"))
    ∧ ∀ s, param request "by_serverid" = Some s →
           ∃ n srv, Py.int s = inr n
                    ∧ srv ∈ narrow_category (param request "category")
                              (QuerySet.servers db)
                    ∧ Server.id srv = n.
Proof.
  by_cases db cache request; id_cases.
  all: split; [intros [resp Hr]; try discriminate|intros (Hg & Hqa & Hsid)].
  all: finish.
Qed.

(** X2: the handler ends with the queryset's [TypeError] exactly when the
    request passes the gate, both [qty] (non-negative) and [by_serverid]
    are integers, and the slice of [qty] is taken from a queryset that has
    not been evaluated: the id lookup then filters a sliced queryset. *)
Theorem type_error_iff (db : QuerySet.Database)
    (cache : option (list Server.t)) (request : Request.t) :
  (∃ msg, fst (handle db cache request) = inl (Py.TypeError msg))
  ↔ ¬ restricted request
    ∧ lazily cache request
    ∧ (∃ q k, param request "qty" = Some q ∧ Py.int q = inr k ∧ 0 ≤ k)
    ∧ (∃ s m, param request "by_serverid" = Some s ∧ Py.int s = inr m).
Proof.
  by_cases db cache request; id_cases.
  all: split;
    [intros [msg Hr]; try discriminate|intros (Hg & Hl & Hqa & Hsid)].
  all: finish.
Qed.

(** X3: the handler ends with an uncaught [ValueError] exactly when the
    request passes the gate and [qty] is present and is not a non-negative
    integer; [by_serverid] never causes one. *)
Theorem value_error_iff (db : QuerySet.Database)
    (cache : option (list Server.t)) (request : Request.t) :
  (∃ msg, fst (handle db cache request) = inl (Py.ValueError msg))
  ↔ ¬ restricted request
    ∧ ∃ q, param request "qty" = Some q ∧ ∀ k, Py.int q = inr k → k < 0.
Proof.
  by_cases db cache request; id_cases.
  all: split; [intros [msg Hr]; try discriminate|intros (Hg & q' & Hq' & Hneg)].
  all: finish.
Qed.

(** X4: the handler answers "Invalid server id" exactly when the request
    passes the gate, [by_serverid] is present and not an integer, and [qty]
    is absent, or is a non-negative integer whose slice is taken from a
    queryset that has not been evaluated. *)
Theorem invalid_parameter_iff (db : QuerySet.Database)
    (cache : option (list Server.t)) (request : Request.t) :
  fst (handle db cache request) = inl InvalidParameter
  ↔ ¬ restricted request
    ∧ (∀ q, param request "qty" = Some q →
            lazily cache request ∧ ∃ n, Py.int q = inr n ∧ 0 ≤ n)
    ∧ ∃ s e, param request "by_serverid" = Some s ∧ Py.int s = inl e.
Proof.
  by_cases db cache request; id_cases.
  all: split; [intros Hr; try discriminate|intros (Hg & Hqa & Hsid)].
  all: finish.
Qed.

(** X5: the handler answers "Server not found" exactly when the request
    passes the gate, has no [qty], and [by_serverid] is an integer that is
    the id of no record of the category-narrowed table. *)
Theorem not_found_iff (db : QuerySet.Database)
    (cache : option (list Server.t)) (request : Request.t) :
  fst (handle db cache request) = inl NotFound
  ↔ ¬ restricted request
    ∧ param request "qty" = None
    ∧ ∃ s n, param request "by_serverid" = Some s ∧ Py.int s = inr n
             ∧ ∀ srv, srv ∈ narrow_category (param request "category")
                                (QuerySet.servers db) →
                      Server.id srv ≠ n.
Proof.
  by_cases db cache request; id_cases.
  all: split; [intros Hr; try discriminate|intros (Hg & Hqa & Hsid)].
  all: finish.
Qed.

(** X15: the handler ends with an [AttributeError] exactly when the request
    passes the gate, the class attribute has been evaluated, no category is
    given, [qty] is a non-negative integer, and [with_num_members] or
    [by_serverid] asks for a method of what is then a list. *)
Theorem attribute_error_iff (db : QuerySet.Database)
    (cache : option (list Server.t)) (request : Request.t) :
  (∃ msg, fst (handle db cache request) = inl (Py.AttributeError msg))
  ↔ ¬ restricted request
    ∧ ¬ lazily cache request
    ∧ (∃ q k, param request "qty" = Some q ∧ Py.int q = inr k ∧ 0 ≤ k)
    ∧ (param request "with_num_members" = Some "True"
       ∨ param request "by_serverid" ≠ None).
Proof.
  by_cases db cache request; id_cases.
  all: split;
    [intros [msg Hr]; try discriminate|intros (Hg & Hl & Hqa & Hsid)].
  all: finish.
Qed.

(** X16: the handler ends with the database's [IntegrityError] exactly when
    the request passes the gate, has no [by_serverid], and [qty] is an
    integer from [2 ^ 63] on whose slice is taken from a queryset that has
    not been evaluated. *)
Theorem integrity_error_iff (db : QuerySet.Database)
    (cache : option (list Server.t)) (request : Request.t) :
  (∃ msg, fst (handle db cache request) = inl (Py.IntegrityError msg))
  ↔ ¬ restricted request
    ∧ lazily cache request
    ∧ param request "by_serverid" = None
    ∧ ∃ q k, param request "qty" = Some q ∧ Py.int q = inr k ∧ 2 ^ 63 ≤ k.
Proof.
  by_cases db cache request; id_cases.
  all: split;
    [intros [msg Hr]; try discriminate|intros (Hg & Hl & Hsid & Hqa)].
  all: finish.
Qed.

(** X6: whatever the request, the database and the state of the class
    attribute, the handler returns a response or ends with one of seven
    errors: the authentication error, "Invalid server id", "Server not
    found", a [ValueError], the [TypeError] of a filter on a sliced
    queryset, the [AttributeError] of a method asked of a list, or the
    [IntegrityError] of the database.  It raises nothing else. *)
Theorem outcomes_exhaustive (db : QuerySet.Database)
    (cache : option (list Server.t)) (request : Request.t) :
  (∃ resp, fst (handle db cache request) = inr resp)
  ∨ fst (handle db cache request) = inl AuthenticationRequired
  ∨ fst (handle db cache request) = inl InvalidParameter
  ∨ fst (handle db cache request) = inl NotFound
  ∨ (∃ msg, fst (handle db cache request) = inl (Py.ValueError msg))
  ∨ fst (handle db cache request)
    = inl (Py.TypeError "Cannot filter a query once a slice has been taken.")
  ∨ (∃ msg, fst (handle db cache request) = inl (Py.AttributeError msg))
  ∨ fst (handle db cache request) = inl (Py.IntegrityError "datatype mismatch").
Proof.
  by_cases db cache request; try destruct (List.filter _ _); naive_solver.
Qed.

(** ** What the outcome depends on *)

Lemma handle_params_eq db cache r1 r2 :
  param r1 "category" = param r2 "category" →
  param r1 "qty" = param r2 "qty" →
  param r1 "by_user" = param r2 "by_user" →
  param r1 "by_serverid" = param r2 "by_serverid" →
  param r1 "with_num_members" = param r2 "with_num_members" →
  User.is_authenticated (Request.user r1)
  = User.is_authenticated (Request.user r2) →
  handle db cache r1 = handle db cache r2.
Proof.
  unfold handle, ServerListViewSet.list, param.
  intros -> -> -> -> -> ->.
  by destruct (bool_decide (_ = Some "true")).
Qed.

Lemma param_with_values key vs request key' :
  param (with_values key vs request) key'
  = if decide (key = key') then last vs else param request key'.
Proof.
  unfold param, with_values, QueryDict.get; simpl.
  rewrite lookup_insert. by case_decide.
Qed.

(** X7: the outcome and the final state are determined by the last values
    of the four documented parameters and of [with_num_members], and by
    whether the requester is authenticated: no other parameter and nothing
    else about the user (its id included) is looked at. *)
Theorem outcome_determined (db : QuerySet.Database)
    (cache : option (list Server.t)) (r1 r2 : Request.t) :
  (∀ key, key ∈ read_parameters → param r1 key = param r2 key) →
  User.is_authenticated (Request.user r1)
  = User.is_authenticated (Request.user r2) →
  handle db cache r1 = handle db cache r2.
Proof.
  intros Hp Ha.
  apply handle_params_eq; try done; apply Hp; vm_compute; set_solver.
Qed.

Lemma outcome_determined_witness :
  handle five_db None (mk_request [("qty", "2"); ("page", "3")] (logged_in 1))
  = handle five_db None (mk_request [("qty", "2")] (logged_in 2)).
Proof.
  apply outcome_determined; [|reflexivity].
  intros key Hkey. apply list_elem_of_In in Hkey. simpl in Hkey.
  destruct Hkey as [<-|[<-|[<-|[<-|[<-|[]]]]]]; by vm_compute.
Defined.

(** X8: when [by_serverid] is absent or empty, the outcome does not depend
    on who asks: every user, anonymous or not, gets the same answer to the
    same query string. *)
Theorem identity_irrelevant (db : QuerySet.Database)
    (cache : option (list Server.t)) (r1 r2 : Request.t) :
  Request.query_params r1 = Request.query_params r2 →
  (param r1 "by_serverid" = None ∨ param r1 "by_serverid" = Some "") →
  handle db cache r1 = handle db cache r2.
Proof.
  unfold handle, ServerListViewSet.list, param. intros <- Hs.
  destruct (bool_decide (_ = Some "true")); [done|].
  by destruct Hs as [-> | ->].
Qed.

Lemma identity_irrelevant_witness :
  handle five_db None
    (mk_request [("category", "Gaming"); ("qty", "2")] anonymous)
  = handle five_db None
      (mk_request [("category", "Gaming"); ("qty", "2")] (logged_in 10)).
Proof.
  apply identity_irrelevant; [reflexivity|]. left. by vm_compute.
Defined.

(** X9: on a request without [qty], whose rows are fetched from the
    database (a category is given, or the class attribute has not been
    evaluated), [with_num_members] changes neither whether the handler
    fails, nor how, nor which records it returns, only their order: two such
    requests that agree on the documented parameters and on being
    authenticated end with the same error or list the same servers, each as
    often. *)
Theorem annotation_keeps_records (db : QuerySet.Database)
    (cache : option (list Server.t)) (r1 r2 : Request.t) :
  (∀ key, key ∈ map Schema.name Schema.server_list_docs →
          param r1 key = param r2 key) →
  User.is_authenticated (Request.user r1)
  = User.is_authenticated (Request.user r2) →
  param r1 "qty" = None →
  lazily cache r1 →
  same_records (fst (handle db cache r1)) (fst (handle db cache r2)).
Proof.
  intros Hp Ha Hqty Hlazy.
  assert (param r1 "category" = param r2 "category") as Hc
    by (apply Hp; vm_compute; set_solver).
  assert (param r1 "qty" = param r2 "qty") as Hq
    by (apply Hp; vm_compute; set_solver).
  assert (param r1 "by_user" = param r2 "by_user") as Hu
    by (apply Hp; vm_compute; set_solver).
  assert (param r1 "by_serverid" = param r2 "by_serverid") as Hs
    by (apply Hp; vm_compute; set_solver).
  rewrite !handle_outcome. unfold outcome, auth_gate.
  rewrite <- Hc, <- Hq, <- Hu, <- Hs, <- Ha, Hqty.
  destruct (_ || _); [done|].
  assert (∀ a1 a2 l,
    servers (yielded db a1 l) ≡ₚ servers (yielded db a2 l)) as Hperm.
  { intros a1 a2 l. by rewrite !servers_yielded_perm. }
  destruct (param r1 "by_serverid") as [s|].
  - destruct (Py.int s) as [e|m]; [done|].
    destruct (List.filter (has_id m) _); [done|]. apply Hperm.
  - destruct (param r1 "category") as [c|] eqn:Hcat.
    + apply Hperm.
    + destruct Hlazy as [Hl| ->]; [done|].
      destruct (bool_decide (param r1 "with_num_members" = Some "True")),
        (bool_decide (param r2 "with_num_members" = Some "True"));
        apply Hperm.
Qed.

Lemma annotation_keeps_records_witness :
  same_records
    (fst (handle five_db None (mk_request [] anonymous)))
    (fst (handle five_db None
            (mk_request [("with_num_members", "True")] anonymous))).
Proof.
  apply annotation_keeps_records; [|reflexivity|by vm_compute|by right].
  intros key Hkey. apply list_elem_of_In in Hkey. simpl in Hkey.
  destruct Hkey as [<-|[<-|[<-|[<-|[]]]]]; by vm_compute.
Defined.

(** X10: only the last value given for a parameter counts: a request that
    repeats a parameter behaves as the request that gives its last value
    alone. *)
Theorem last_value_counts (db : QuerySet.Database)
    (cache : option (list Server.t)) (request : Request.t)
    (key : string) (vs : list string) (v : string) :
  handle db cache (with_values key (vs ++ [v]) request)
  = handle db cache (with_param key v request).
Proof.
  change (with_param key v request) with (with_values key [v] request).
  apply handle_params_eq; try done;
    rewrite !param_with_values; case_decide; try done; by rewrite last_snoc.
Qed.

(** ** What a response holds *)

Lemma yielded_submseteq db annotated (l k : list Server.t) :
  sublist l k → servers (yielded db annotated l) ⊆+ k.
Proof.
  intros Hl. rewrite servers_yielded_perm. by apply sublist_submseteq.
Qed.

Lemma narrow_category_sublist category (l : list Server.t) :
  sublist (narrow_category category l) l.
Proof. destruct category; [apply filter_sublist|done]. Qed.

(** X11: a response never lists a record out of nowhere: its servers are
    stored servers, none more often than it is stored, or, for a request
    without category in a process whose class attribute has been evaluated,
    servers of the cached list, in its order. *)
Theorem returns_stored_records (db : QuerySet.Database)
    (cache : option (list Server.t)) (request : Request.t)
    (resp : Response.t) :
  fst (handle db cache request) = inr resp →
  servers (Response.data resp) ⊆+ QuerySet.servers db
  ∨ ∃ cached, cache = Some cached
              ∧ param request "category" = None
              ∧ sublist (servers (Response.data resp)) cached.
Proof.
  rewrite handle_outcome. unfold outcome.
  pose proof (narrow_category_sublist (param request "category")
                (QuerySet.servers db)) as Hsub.
  assert (∀ a k,
    servers (take k (yielded db a
       (narrow_category (param request "category") (QuerySet.servers db))))
    ⊆+ QuerySet.servers db) as Htake.
  { intros a k. rewrite servers_take.
    etrans; [apply sublist_submseteq, sublist_take|].
    by apply yielded_submseteq. }
  destruct (auth_gate request); [done|].
  destruct (param request "qty") as [q|];
    [destruct (Py.int q) as [e|k]; [done|destruct (k <? 0); [done|]]|];
    (destruct (param request "by_serverid") as [s|];
     [destruct (Py.int s) as [e'|m]; [|]|]);
    destruct (param request "category") as [c|];
    destruct cache as [cached|];
    destruct (bool_decide (param request "with_num_members" = Some "True"));
    try destruct (_ <=? _);
    try (destruct (List.filter (has_id m) _) eqn:Hf);
    try done; intros [= <-]; unfold response_of; cbn [Response.data];
    first
      [ left; apply (Htake true)
      | left; apply (Htake false)
      | left; by apply (yielded_submseteq db true)
      | left; by apply (yielded_submseteq db false)
      | left; etrans;
        [apply Permutation_submseteq, (servers_yielded_perm db true (_ :: _))
        |rewrite <- Hf; apply sublist_submseteq;
         (etrans; [apply filter_sublist|done])]
      | left; etrans;
        [apply Permutation_submseteq, (servers_yielded_perm db false (_ :: _))
        |rewrite <- Hf; apply sublist_submseteq;
         (etrans; [apply filter_sublist|done])]
      | right; eexists; split; [done|]; split; [done|];
        rewrite ?servers_take, servers_rows; try done; apply sublist_take ].
Qed.

Lemma returns_stored_records_witness :
  [mk_server 1 "Gaming" [10; 11]; mk_server 3 "Gaming" []] ⊆+ five_servers
  ∨ ∃ cached, None = Some cached
              ∧ param (mk_request [("qty", "2"); ("with_num_members", "True")]
                         anonymous) "category" = None
              ∧ sublist [mk_server 1 "Gaming" [10; 11]; mk_server 3 "Gaming" []]
                  cached.
Proof.
  refine (returns_stored_records five_db None
            (mk_request [("qty", "2"); ("with_num_members", "True")] anonymous)
            (response_of true
               [row true (mk_server 1 "Gaming" [10; 11]);
                row true (mk_server 3 "Gaming" [])]) _).
  by vm_compute.
Defined.

(** X12: a response to a request with [by_serverid] is never empty: the
    parameter is an integer, the request has no [qty], and every record
    listed is a stored record with that id. *)
Theorem serverid_response (db : QuerySet.Database)
    (cache : option (list Server.t)) (request : Request.t)
    (s : string) (resp : Response.t) :
  param request "by_serverid" = Some s →
  fst (handle db cache request) = inr resp →
  ∃ n, Py.int s = inr n
       ∧ param request "qty" = None
       ∧ Response.data resp ≠ []
       ∧ ∀ r, r ∈ Response.data resp →
              Server.id (QuerySet.instance r) = n
              ∧ QuerySet.instance r ∈ QuerySet.servers db.
Proof.
  intros Hs. rewrite handle_outcome. unfold outcome. rewrite Hs.
  destruct (auth_gate request); [done|].
  destruct (param request "qty") as [q|].
  { destruct (Py.int q); [done|]. destruct (_ <? 0); [done|].
    destruct (param request "category"), cache,
      (bool_decide (param request "with_num_members" = Some "True"));
      try done; by destruct (Py.int s). }
  destruct (Py.int s) as [|n]; [done|].
  destruct (List.filter (has_id n) _) as [|srv l] eqn:Hf; [done|].
  intros [= <-]. exists n. do 2 (split; [done|]). simpl.
  pose proof (servers_yielded_perm db
    (bool_decide (param request "with_num_members" = Some "True"))
    (srv :: l)) as Hperm.
  split.
  - intros Hnil. rewrite Hnil in Hperm. by apply Permutation_nil_cons in Hperm.
  - intros r Hr.
    assert (QuerySet.instance r ∈ srv :: l) as Hin.
    { rewrite <- Hperm. by apply (list_elem_of_fmap_2 QuerySet.instance). }
    rewrite <- Hf in Hin. apply filter_has_id_elem in Hin as [Hin Hid].
    split; [done|]. eapply elem_of_sublist; [exact Hin|].
    apply narrow_category_sublist.
Qed.

Lemma serverid_response_witness :
  ∃ n, Py.int "2" = inr n
       ∧ param (mk_request [("by_serverid", "2")] (logged_in 10)) "qty" = None
       ∧ [row false (mk_server 2 "Music" [10])] ≠ []
       ∧ ∀ r, r ∈ [row false (mk_server 2 "Music" [10])] →
              Server.id (QuerySet.instance r) = n
              ∧ QuerySet.instance r ∈ five_servers.
Proof.
  refine (serverid_response five_db None
            (mk_request [("by_serverid", "2")] (logged_in 10)) "2"
            (response_of false [row false (mk_server 2 "Music" [10])]) _ _);
    by vm_compute.
Defined.



(** ** The documented parameters and the handler *)

(** X14: every parameter that [server_list_docs] documents is read by the
    handler, each can change an outcome; [with_num_members] can too, and is
    not among the documented parameters. *)
Theorem documented_parameters_effective :
  Forall (λ p, effective (Schema.name p)) Schema.server_list_docs
  ∧ effective "with_num_members"
  ∧ "with_num_members" ∉ map Schema.name Schema.server_list_docs.
Proof.
  split; [repeat constructor|split].
  - exists five_db, None, (mk_request [] anonymous), "Gaming". by vm_compute.
  - exists five_db, None, (mk_request [] anonymous), "1". by vm_compute.
  - exists five_db, None, (mk_request [] anonymous), "true". by vm_compute.
  - exists five_db, None, (mk_request [] anonymous), "1". by vm_compute.
  - exists five_db, None, (mk_request [] anonymous), "True". by vm_compute.
  - intros Hin%list_elem_of_In. simpl in Hin.
    by destruct Hin as [?|[?|[?|[?|[]]]]].
Qed.

(** ** The class attribute across requests *)

Lemma instance_base_rows (l : list Server.t) :
  map QuerySet.instance (map QuerySet.base_row l) = l.
Proof. rewrite map_map. apply map_id. Qed.

Lemma cache_after_start cache :
  ServerListViewSet.cache_after (ServerListViewSet.start cache) = cache.
Proof.
  destruct cache as [l|]; [|done].
  unfold ServerListViewSet.cache_after, ServerListViewSet.start.
  cbn [QuerySet.result_cache ServerListViewSet.class_queryset].
  by rewrite instance_base_rows.
Qed.

(** X17: a request that passes the gate and asks for no category, quantity,
    annotation or id iterates the class attribute itself: it lists the
    servers that attribute has cached, or the stored servers when it has
    not been evaluated, and leaves them cached on the class.  From then on,
    such requests list the same servers whatever the database holds. *)
Theorem plain_request_fills_class_cache (db : QuerySet.Database)
    (cache : option (list Server.t)) (request : Request.t) :
  plain request →
  returned_servers (fst (handle db cache request))
  = inr (default (QuerySet.servers db) cache)
  ∧ ServerListViewSet.cache_after (snd (handle db cache request))
    = Some (default (QuerySet.servers db) cache).
Proof.
  unfold plain, handle, ServerListViewSet.list, ServerListViewSet.start, param.
  intros (Hc & Hq & Hu & Hw & Hs). rewrite Hc, Hq, Hs.
  rewrite !(bool_decide_eq_false_2 _ Hu), !(bool_decide_eq_false_2 _ Hw).
  destruct cache as [cached|]; run;
    unfold returned_servers, servers, ServerListViewSet.cache_after;
    cbn [fst snd Response.data QuerySet.result_cache default
         ServerListViewSet.class_queryset ServerListViewSet.with_cache];
    by rewrite instance_base_rows.
Qed.

Lemma plain_request_fills_class_cache_witness :
  returned_servers (fst (handle five_db (Some [mk_server 9 "Old" []])
                           (mk_request [] anonymous)))
  = inr (default five_servers (Some [mk_server 9 "Old" []]))
  ∧ ServerListViewSet.cache_after
      (snd (handle five_db (Some [mk_server 9 "Old" []])
              (mk_request [] anonymous)))
    = Some (default five_servers (Some [mk_server 9 "Old" []])).
Proof.
  apply (plain_request_fills_class_cache five_db (Some [mk_server 9 "Old" []])
           (mk_request [] anonymous)).
  by vm_compute.
Defined.

(** X18: every other request leaves the class attribute as it found it:
    what it filters, slices or annotates is a queryset of its own, and an
    exception changes nothing. *)
Theorem other_requests_keep_class_cache (db : QuerySet.Database)
    (cache : option (list Server.t)) (request : Request.t) :
  ¬ plain request →
  ServerListViewSet.cache_after (snd (handle db cache request)) = cache.
Proof.
  intros Hplain.
  rewrite <- (cache_after_start cache) at 2. revert Hplain.
  unfold plain, handle, ServerListViewSet.list, param.
  destruct (bool_decide (_ = Some "true")) eqn:Hu; [by run|].
  apply bool_decide_eq_false in Hu.
  destruct (Py.truthy _ && _); [by run|].
  destruct (bool_decide (_ = Some "True")) eqn:Hw;
    [apply bool_decide_eq_true in Hw|apply bool_decide_eq_false in Hw];
    destruct (QueryDict.get _ "category") as [c|];
    destruct (QueryDict.get _ "qty") as [q|];
    destruct (QueryDict.get _ "by_serverid") as [s|];
    destruct cache as [cached|];
    intros Hplain; try (by destruct Hplain);
    run; repeat exec_step; try done; try lia.
Qed.

Lemma other_requests_keep_class_cache_witness :
  ServerListViewSet.cache_after
    (snd (handle five_db None (mk_request [("qty", "2")] anonymous)))
  = None.
Proof.
  apply (other_requests_keep_class_cache five_db None
           (mk_request [("qty", "2")] anonymous)).
  intros (_ & Hq & _). by vm_compute in Hq.
Defined.
